(** * Task list client: the shared task store and its screens

    A shallow embedding of [App.tsx] (the [TaskProvider] store and the
    [useTasks] hook), of [AddTaskScreen] and [TaskDetailScreen] (both in
    [src/navigation/AppNavigator.tsx]) and of [HomeScreen].

    - JavaScript strings are sequences of UTF-16 code units.
    - A [Date] is its time value (milliseconds since the epoch, UTC) or the
      invalid date; the calendar functions follow ECMA-262, clause 21.4.1.
    - An [async] function is a program of a small free monad: synchronous
      effects, suspension on a network call, and the call of another
      [async] function whose promise is dropped.
    - The running application is a transition system on a [World]: the
      React state of the provider and of the two screens, the log of what
      the application did to the outside (HTTP requests, alerts, console,
      navigation) and the requests still in flight with their
      continuations. *)

From Stdlib Require Import ZArith NArith List String Ascii Bool Lia.
Import ListNotations.

Set Implicit Arguments.

(* ================================================================== *)
(** * JavaScript strings                                               *)
(* ================================================================== *)

Module Js.

(** A string value: a finite sequence of 16-bit code units. *)
Definition str := list N.

(** An ASCII literal as a JavaScript string. *)
Definition lit (s : string) : str :=
  map N_of_ascii (list_ascii_of_string s).

Fixpoint eqb (a b : str) : bool :=
  match a, b with
  | [], [] => true
  | x :: a', y :: b' => N.eqb x y && eqb a' b'
  | _, _ => false
  end.

(** [WhiteSpace] and [LineTerminator] code points of ECMA-262 (12.2,
    12.3): TAB, LF, VT, FF, CR, SP, NBSP, the other members of the
    Unicode category Zs, LS, PS and ZWNBSP. *)
Definition is_white_space (c : N) : bool :=
  (N.leb 9 c && N.leb c 13)
  || N.eqb c 32 || N.eqb c 160 || N.eqb c 5760
  || (N.leb 8192 c && N.leb c 8202)
  || N.eqb c 8232 || N.eqb c 8233 || N.eqb c 8239 || N.eqb c 8287
  || N.eqb c 12288 || N.eqb c 65279.

Fixpoint trimStart (s : str) : str :=
  match s with
  | [] => []
  | c :: s' => if is_white_space c then trimStart s' else s
  end.

Definition trimEnd (s : str) : str := rev (trimStart (rev s)).

(** [String.prototype.trim]. *)
Definition trim (s : str) : str := trimEnd (trimStart s).

(** [ToBoolean] of a string: the empty string is the only falsy one. *)
Definition truthy (s : str) : bool :=
  match s with [] => false | _ :: _ => true end.

(** [s.split(sep)[0]] for a one-unit separator: the part of [s] before
    the first occurrence of [sep], the whole of [s] when there is none. *)
Fixpoint split_head (sep : N) (s : str) : str :=
  match s with
  | [] => []
  | c :: s' => if N.eqb c sep then [] else c :: split_head sep s'
  end.

(** A string that is empty or made of white space only. *)
Definition blank (s : str) : bool := forallb is_white_space s.

End Js.

(* ================================================================== *)
(** * Dates (ECMA-262, 21.4.1)                                         *)
(* ================================================================== *)

Module JsDate.
Local Open Scope Z_scope.

(** The time value of a [Date] object; [Invalid] is the NaN time value. *)
Inductive Date := Invalid | TimeValue (t : Z).

Definition msPerDay : Z := 86400000.
Definition msPerHour : Z := 3600000.
Definition msPerMinute : Z := 60000.
Definition msPerSecond : Z := 1000.

Definition Day (t : Z) : Z := t / msPerDay.
Definition TimeWithinDay (t : Z) : Z := t mod msPerDay.

Definition is_leap (y : Z) : bool :=
  if negb (y mod 4 =? 0) then false
  else if negb (y mod 100 =? 0) then true
  else if negb (y mod 400 =? 0) then false
  else true.

Definition DaysInYear (y : Z) : Z := if is_leap y then 366 else 365.

Definition DayFromYear (y : Z) : Z :=
  365 * (y - 1970) + (y - 1969) / 4 - (y - 1901) / 100 + (y - 1601) / 400.

Definition TimeFromYear (y : Z) : Z := msPerDay * DayFromYear y.

(** The year of the day number [d]: the estimate from the mean length
    of a Gregorian year is off by one at most, and is corrected against
    [DayFromYear]. *)
Definition YearFromDay (d : Z) : Z :=
  let y := 1970 + (400 * d) / 146097 in
  if DayFromYear (y + 1) <=? d then y + 1
  else if DayFromYear y <=? d then y
  else y - 1.

(** The largest [y] such that [TimeFromYear y <= t]. *)
Definition YearFromTime (t : Z) : Z := YearFromDay (Day t).

Definition InLeapYear (t : Z) : Z :=
  if is_leap (YearFromTime t) then 1 else 0.

Definition DayWithinYear (t : Z) : Z :=
  Day t - DayFromYear (YearFromTime t).

(** Day number, within its year, of the first day of month [m] (0..11). *)
Definition MonthStart (m leap : Z) : Z :=
  match m with
  | 0 => 0
  | 1 => 31
  | 2 => 59 + leap
  | 3 => 90 + leap
  | 4 => 120 + leap
  | 5 => 151 + leap
  | 6 => 181 + leap
  | 7 => 212 + leap
  | 8 => 243 + leap
  | 9 => 273 + leap
  | 10 => 304 + leap
  | _ => 334 + leap
  end.

Definition MonthFromDay (d leap : Z) : Z :=
  if d <? 31 then 0
  else if d <? 59 + leap then 1
  else if d <? 90 + leap then 2
  else if d <? 120 + leap then 3
  else if d <? 151 + leap then 4
  else if d <? 181 + leap then 5
  else if d <? 212 + leap then 6
  else if d <? 243 + leap then 7
  else if d <? 273 + leap then 8
  else if d <? 304 + leap then 9
  else if d <? 334 + leap then 10
  else 11.

Definition MonthFromTime (t : Z) : Z :=
  MonthFromDay (DayWithinYear t) (InLeapYear t).

Definition DateFromTime (t : Z) : Z :=
  DayWithinYear t - MonthStart (MonthFromTime t) (InLeapYear t) + 1.

Definition HourFromTime (t : Z) : Z := (t / msPerHour) mod 24.
Definition MinFromTime (t : Z) : Z := (t / msPerMinute) mod 60.
Definition SecFromTime (t : Z) : Z := (t / msPerSecond) mod 60.
Definition msFromTime (t : Z) : Z := t mod msPerSecond.

(** [MakeDay(year, month, date)]: the day number of the first day of the
    month, plus [date - 1]. *)
Definition MakeDay (year month date : Z) : Z :=
  let ym := year + month / 12 in
  let mn := month mod 12 in
  DayFromYear ym + MonthStart mn (if is_leap ym then 1 else 0) + date - 1.

Definition MakeDate (day time : Z) : Z := day * msPerDay + time.

(** [TimeClip]: time values beyond 8.64e15 ms are not representable. *)
Definition TimeClip (t : Z) : Date :=
  if Z.abs t <=? 8640000000000000 then TimeValue t else Invalid.

(** The local time zone: the offset [LocalTZA(t, isUTC)] of ECMA-262,
    which the host environment defines. *)
Definition TimeZone := Z -> bool -> Z.

Definition LocalTime (tz : TimeZone) (t : Z) : Z := t + tz t true.
Definition UTC (tz : TimeZone) (t : Z) : Z := t - tz t false.

(** [Date.prototype.getDate]: [None] is NaN. *)
Definition getDate (tz : TimeZone) (d : Date) : option Z :=
  match d with
  | Invalid => None
  | TimeValue t => Some (DateFromTime (LocalTime tz t))
  end.

(** [Date.prototype.setDate], as the new time value of the object. *)
Definition setDate (tz : TimeZone) (d : Date) (date : option Z) : Date :=
  match d, date with
  | TimeValue t, Some dt =>
      let lt := LocalTime tz t in
      let newDate :=
        MakeDate (MakeDay (YearFromTime lt) (MonthFromTime lt) dt)
                 (TimeWithinDay lt) in
      TimeClip (UTC tz newDate)
  | _, _ => Invalid
  end.

(** ** [Date.prototype.toISOString] *)

Definition digit (n : Z) : N := 48 + Z.to_N (n mod 10).

(** The decimal digits of [n], padded with zeros to at least [k] digits. *)
Fixpoint pad (k : nat) (n : Z) : Js.str :=
  match k with
  | O => []
  | S k' => pad k' (n / 10) ++ [digit n]
  end.

(** The year: four digits for 0..9999, otherwise a sign and six digits
    (the expanded years of ECMA-262, 21.4.1.32.1). *)
Definition year_string (y : Z) : Js.str :=
  if (0 <=? y) && (y <=? 9999) then pad 4 y
  else (if 0 <=? y then 43%N else 45%N) :: pad 6 (Z.abs y).

(** [YYYY-MM-DD], or the same with an expanded year. *)
Definition date_string (t : Z) : Js.str :=
  year_string (YearFromTime t) ++ [45%N]
    ++ pad 2 (MonthFromTime t + 1) ++ [45%N]
    ++ pad 2 (DateFromTime t).

(** [HH:mm:ss.sss] *)
Definition time_string (t : Z) : Js.str :=
  pad 2 (HourFromTime t) ++ [58%N]
    ++ pad 2 (MinFromTime t) ++ [58%N]
    ++ pad 2 (SecFromTime t) ++ [46%N]
    ++ pad 3 (msFromTime t).

(** The date, [T], the time, [Z]. *)
Definition iso_string (t : Z) : Js.str :=
  date_string t ++ [84%N] ++ time_string t ++ [90%N].

(** [None]: the call throws a [RangeError] (invalid date). *)
Definition toISOString (d : Date) : option Js.str :=
  match d with
  | Invalid => None
  | TimeValue t => Some (iso_string t)
  end.

End JsDate.

(* ================================================================== *)
(** * Data model ([App.tsx], lines 14-30)                              *)
(* ================================================================== *)

Inductive Status := pending | completed.

Record Task := {
  id : Js.str;
  title : Js.str;
  description : Js.str;
  status : Status;
  dueDate : option Js.str
}.

(** The argument of [createTask]: the body of the creation request. *)
Module NewTask.
Record t := make {
  title : Js.str;
  description : Js.str;
  dueDate : option Js.str
}.
End NewTask.

Inductive Error :=
| NetworkError              (* axios rejects: transport error or non-2xx *)
| RangeError                (* [toISOString] of an invalid date *)
| Err (message : string).   (* [new Error(message)] *)

Inductive Result (A : Type) :=
| Ok (data : A)
| Rejected (e : Error).
Arguments Rejected {A} e.

(* ================================================================== *)
(** * Effects and asynchronous programs                                *)
(* ================================================================== *)

Inductive Route :=
| home
| addTask
| taskDetail (taskId : Js.str).

(** A call into the navigator. *)
Inductive NavCall :=
| goBack
| navigate (r : Route).

(** What a handler does synchronously: the state setters of the three
    components, and the calls into React Native and the navigator. *)
Inductive Action :=
| setTasks (data : list Task)
| setIsLoading (b : bool)
| setIsSaving (b : bool)
| setLocalTask (t : option Task)
| setLoading (b : bool)
| Alert_alert (heading message : string)
| console_error (message : string)
| navigation (call : NavCall).

(** The requests that change the server: [api.post], [api.patch] and
    [api.delete]. *)
Inductive Mutation :=
| Post (data : NewTask.t)
| Patch (taskId : Js.str) (s : Status)
| Delete (taskId : Js.str).

(** An [async] function body.  [AwaitTasks] is [api.get('/api/tasks')],
    [AwaitTask] is [api.get(`/api/tasks/${taskId}`)]; the continuation
    receives the settled promise.  [Call q k] calls the [async] function
    [q] and goes on with [k] without awaiting its promise. *)
Inductive Prog (R : Type) : Type :=
| Ret (r : R)
| Throw (e : Error)
| Do (a : Action) (k : Prog R)
| AwaitTasks (k : Result (list Task) -> Prog R)
| AwaitTask (taskId : Js.str) (k : Result Task -> Prog R)
| AwaitSend (m : Mutation) (k : Result unit -> Prog R)
| Call (q : Prog unit) (k : Prog R).
Arguments Ret {R} r.
Arguments Throw {R} e.
Arguments AwaitTasks {R} k.
Arguments AwaitTask {R} taskId k.
Arguments AwaitSend {R} m k.

Fixpoint bind {A B : Type} (p : Prog A) (f : A -> Prog B) : Prog B :=
  match p with
  | Ret r => f r
  | Throw e => Throw e
  | Do a k => Do a (bind k f)
  | AwaitTasks k => AwaitTasks (fun r => bind (k r) f)
  | AwaitTask i k => AwaitTask i (fun r => bind (k r) f)
  | AwaitSend m k => AwaitSend m (fun r => bind (k r) f)
  | Call q k => Call q (bind k f)
  end.

(** [try { p } catch (e) { h e }] *)
Fixpoint try_catch {R : Type} (p : Prog R) (h : Error -> Prog R) : Prog R :=
  match p with
  | Ret r => Ret r
  | Throw e => h e
  | Do a k => Do a (try_catch k h)
  | AwaitTasks k => AwaitTasks (fun r => try_catch (k r) h)
  | AwaitTask i k => AwaitTask i (fun r => try_catch (k r) h)
  | AwaitSend m k => AwaitSend m (fun r => try_catch (k r) h)
  | Call q k => Call q (try_catch k h)
  end.

(** [try { p } finally { f }] *)
Fixpoint try_finally {R : Type} (p : Prog R) (f : Prog unit) : Prog R :=
  match p with
  | Ret r => bind f (fun _ => Ret r)
  | Throw e => bind f (fun _ => Throw e)
  | Do a k => Do a (try_finally k f)
  | AwaitTasks k => AwaitTasks (fun r => try_finally (k r) f)
  | AwaitTask i k => AwaitTask i (fun r => try_finally (k r) f)
  | AwaitSend m k => AwaitSend m (fun r => try_finally (k r) f)
  | Call q k => Call q (try_finally k f)
  end.

Declare Scope prog_scope.
Delimit Scope prog_scope with prog.
Notation "x <- p ;; q" := (bind p (fun x => q))
  (at level 61, p at next level, right associativity) : prog_scope.
Notation "p ;; q" := (bind p (fun _ => q))
  (at level 61, right associativity) : prog_scope.
Notation "'try' p 'catch' h 'finally' f" :=
  (try_finally (try_catch p h) f)
  (at level 10, p at level 9, h at level 9, f at level 9) : prog_scope.

(** A synchronous statement. *)
Definition act (a : Action) : Prog unit := Do a (Ret tt).

(** The statement [q();] for an [async] function [q]: the call, its
    promise dropped. *)
Definition call (q : Prog unit) : Prog unit := Call q (Ret tt).

(** [await] of an axios promise: the response data, or the rejection
    thrown at the [await]. *)
Definition settle {A : Type} (r : Result A) : Prog A :=
  match r with
  | Ok d => Ret d
  | Rejected e => Throw e
  end.

Module api.
Definition get_tasks : Prog (list Task) := AwaitTasks settle.
Definition get_task (taskId : Js.str) : Prog Task := AwaitTask taskId settle.
Definition post (data : NewTask.t) : Prog unit := AwaitSend (Post data) settle.
Definition patch (taskId : Js.str) (s : Status) : Prog unit :=
  AwaitSend (Patch taskId s) settle.
Definition delete (taskId : Js.str) : Prog unit :=
  AwaitSend (Delete taskId) settle.
End api.

Local Open Scope prog_scope.
Local Open Scope string_scope.

(* ================================================================== *)
(** * The task store ([App.tsx])                                       *)
(* ================================================================== *)

(** What the context hands to the screens ([TaskContextType]). *)
Module TaskContextType.
Record t := make {
  tasks : list Task;
  fetchTasks : Prog unit;
  isLoading : bool;
  createTask : NewTask.t -> Prog unit;
  updateTaskStatus : Js.str -> Status -> Prog unit;
  deleteTask : Js.str -> Prog unit;
  getTaskById : Js.str -> option Task
}.
End TaskContextType.

Module TaskProvider.

(** The two [useState] cells of the provider. *)
Record State := {
  tasks : list Task;
  isLoading : bool
}.

Definition initial : State := {| tasks := []; isLoading := false |}.

Definition fetchTasks : Prog unit :=
  act (setIsLoading true) ;;
  try
    (data <- api.get_tasks ;;
     act (setTasks data))
  catch (fun e =>
    act (console_error "Error fetching tasks:") ;;
    act (Alert_alert "Bağlantı Hatası"
           "Görevler yüklenemedi. API'nin çalıştığından emin olun."))
  finally
    (act (setIsLoading false)).

Definition createTask (data : NewTask.t) : Prog unit :=
  api.post data ;;
  call fetchTasks.

Definition updateTaskStatus (taskId : Js.str) (s : Status) : Prog unit :=
  api.patch taskId s ;;
  call fetchTasks.

Definition deleteTask (taskId : Js.str) : Prog unit :=
  api.delete taskId ;;
  call fetchTasks.

Definition getTaskById (tasks : list Task) (taskId : Js.str) : option Task :=
  find (fun t => Js.eqb (id t) taskId) tasks.

(** The [value] of [TaskContext.Provider] at a render. *)
Definition value (s : State) : TaskContextType.t :=
  TaskContextType.make (tasks s) fetchTasks (isLoading s)
    createTask updateTaskStatus deleteTask (getTaskById (tasks s)).

End TaskProvider.

(** [React.useContext(TaskContext)]: the value of the nearest enclosing
    provider, and the default value of the context ([undefined]) when
    there is none.  The only provider of [TaskContext] is the one
    [TaskProvider] renders. *)
Module React.
Inductive Ancestor :=
| TaskProvider_ (s : TaskProvider.State)
| OtherComponent.

Fixpoint useContext (ancestors : list Ancestor)
  : option TaskContextType.t :=
  match ancestors with
  | [] => None
  | TaskProvider_ s :: _ => Some (TaskProvider.value s)
  | OtherComponent :: rest => useContext rest
  end.
End React.

(** [useTasks], called from a component with the given ancestors,
    innermost first. *)
Definition useTasks (ancestors : list React.Ancestor)
  : Result TaskContextType.t :=
  match React.useContext ancestors with
  | None => Rejected (Err "useTasks must be used within a TaskProvider")
  | Some context => Ok context
  end.

(* ================================================================== *)
(** * What the screens render                                          *)
(* ================================================================== *)

(** [CustomButton]: a label on a colour; pressing it runs [action],
    unless it is disabled. *)
Module Button.
Record t := make {
  label : string;
  color : string;
  action : Prog unit;
  disabled : bool
}.
End Button.

(** [CustomButton] with its default [disabled = false]. *)
Definition CustomButton (label color : string) (action : Prog unit)
    (disabled : option bool) : Button.t :=
  Button.make label color action
    (match disabled with Some b => b | None => false end).

(** The child [v && <element/>] of a JSX expression, for a nullable
    string [v]: nothing for [null]; the empty string itself when [v] is
    empty; the element otherwise. *)
Inductive Child (A : Type) : Type :=
| Nothing
| Bare (s : Js.str)
| Element (a : A).
Arguments Nothing {A}.
Arguments Bare {A} s.
Arguments Element {A} a.

Definition and_then {A : Type} (v : option Js.str) (element : Js.str -> A)
  : Child A :=
  match v with
  | None => Nothing
  | Some s => if Js.truthy s then Element (element s) else Bare s
  end.

(** The value of the union type [Status] as the string it is. *)
Definition status_string (s : Status) : Js.str :=
  match s with
  | pending => Js.lit "pending"
  | completed => Js.lit "completed"
  end.

(* ================================================================== *)
(** * The screens                                                      *)
(* ================================================================== *)

(** The screens take the store from [useTasks], which they import from
    [../context/TaskContext]; the store they get is the one [App.tsx]
    defines and renders above them, and its operations are used here. *)

Module HomeScreen.
Definition handlePressTask (taskId : Js.str) : Prog unit :=
  act (navigation (navigate (taskDetail taskId))).

Definition pressAdd : Prog unit :=
  act (navigation (navigate addTask)).
(** ** Rendering ([HomeScreen.tsx]) *)

Definition THEME_primary : string := "#2563EB".
Definition THEME_success : string := "#10B981".

(** [TaskCard]: the title, the status badge and, for a task with a due
    date, the due-date line (its caption and the date). *)
Record Card := {
  onPress : Prog unit;
  cardTitle : Js.str;
  statusColor : string;
  statusText : string;
  cardDetail : Child (string * Js.str)
}.

Definition TaskCard (task : Task) (onPressAction : Js.str -> Prog unit)
  : Card :=
  let done := Js.eqb (status_string (status task)) (Js.lit "completed") in
  {| onPress := onPressAction (id task);
     cardTitle := title task;
     statusColor := if done then THEME_success else "#F59E0B";
     statusText := if done then "Tamamlandı" else "Beklemede";
     cardDetail :=
       and_then (dueDate task) (fun d => ("Bitiş Tarihi: ", d)) |}.

(** The list: one keyed card per task, or the text for no tasks. *)
Inductive Content :=
| Cards (cards : list (Js.str * Card))
| EmptyText (text : string).

Record Screen := {
  header : string;
  refreshing : bool;
  onRefresh : Prog unit;
  content : Content;
  fab : Prog unit
}.

(** The component, given what [useTasks()] returned. *)
Definition render (store : TaskContextType.t) : Screen :=
  let tasks := TaskContextType.tasks store in
  {| header := "Yapılacaklar";
     refreshing := TaskContextType.isLoading store;
     onRefresh := TaskContextType.fetchTasks store;
     content :=
       if Nat.ltb 0 (List.length tasks) then
         Cards (map (fun task => (id task, TaskCard task handlePressTask))
                  tasks)
       else EmptyText "Henüz görev bulunmamaktadır.";
     fab := pressAdd |}.

End HomeScreen.

Module AddTaskScreen.
Import JsDate.

Record State := {
  title : Js.str;
  description : Js.str;
  dueDate : Date;
  isSaving : bool
}.

(** [new Date()] moved to the next day of the local calendar. *)
Definition defaultDate (tz : TimeZone) (now : Z) : Date :=
  let d := TimeValue now in
  setDate tz d (option_map (fun n => n + 1)%Z (getDate tz d)).

(** The state at the first render. *)
Definition initial (tz : TimeZone) (now : Z) : State :=
  {| title := []; description := [];
     dueDate := defaultDate tz now; isSaving := false |}.

(** [dueDate.toISOString().split('T')[0]] *)
Definition dateToSend (d : Date) : Prog Js.str :=
  match toISOString d with
  | None => Throw RangeError
  | Some s => Ret (Js.split_head 84 s)
  end.

Definition handleSave (title description : Js.str) (dueDate : Date)
  : Prog unit :=
  if negb (Js.truthy (Js.trim title)) then
    act (Alert_alert "Hata" "Başlık alanı zorunludur.")
  else
    act (setIsSaving true) ;;
    try
      (date <- dateToSend dueDate ;;
       TaskProvider.createTask (NewTask.make title description (Some date)) ;;
       act (navigation goBack))
    catch (fun e =>
      act (Alert_alert "Hata" "Görev kaydedilirken bir sorun oluştu."))
    finally
      (act (setIsSaving false)).

(** ** Rendering: the Save button *)

Definition THEME_primary : string := "#2563EB".

Definition saveButton (s : State) : Button.t :=
  CustomButton (if isSaving s then "Kaydediliyor..." else "Kaydet")
    THEME_primary
    (handleSave (title s) (description s) (dueDate s))
    (Some (isSaving s)).

End AddTaskScreen.

Module TaskDetailScreen.

Record State := {
  taskId : Js.str;
  localTask : option Task;
  loading : bool
}.

Definition initial (taskId : Js.str) : State :=
  {| taskId := taskId; localTask := None; loading := true |}.

Definition fetchDetail (taskId : Js.str) : Prog unit :=
  act (setLoading true) ;;
  try
    (data <- api.get_task taskId ;;
     act (setLocalTask (Some data)))
  catch (fun e =>
    act (Alert_alert "Hata" "Görev detayları yüklenemedi.") ;;
    act (navigation goBack))
  finally
    (act (setLoading false)).

Definition toggled (s : Status) : Status :=
  match s with completed => pending | pending => completed end.

Definition with_status (t : Task) (s : Status) : Task :=
  {| id := id t; title := title t; description := description t;
     status := s; dueDate := dueDate t |}.

Definition handleToggleStatus (taskId : Js.str) (localTask : option Task)
  : Prog unit :=
  match localTask with
  | None => Ret tt
  | Some task =>
      let newStatus := toggled (status task) in
      try_catch
        (TaskProvider.updateTaskStatus taskId newStatus ;;
         act (setLocalTask (Some (with_status task newStatus))) ;;
         act (Alert_alert "Başarılı"
                ("Görev durumu "
                 ++ match newStatus with
                    | completed => "tamamlandı"
                    | pending => "beklemede"
                    end
                 ++ " olarak güncellendi.")))
        (fun e => act (Alert_alert "Hata" "Durum güncellenirken bir sorun oluştu."))
  end.

(** [handleDelete] opens the confirmation dialog... *)
Definition handleDelete : Prog unit :=
  act (Alert_alert "Görevi Sil"
         "Bu görevi silmek istediğinizden emin misiniz?").

(** ... whose destructive button runs this. *)
Definition confirmDelete (taskId : Js.str) : Prog unit :=
  try_catch
    (TaskProvider.deleteTask taskId ;;
     act (navigation goBack))
    (fun e => act (Alert_alert "Hata" "Silme işlemi başarısız oldu.")).

Definition handleEdit : Prog unit :=
  act (Alert_alert "Düzenleme" "Düzenleme ekranı tanımlanmamıştır.").

(** ** Rendering ([DetailView] and the screen) *)

Definition THEME_primary : string := "#2563EB".
Definition THEME_danger : string := "#EF4444".
Definition THEME_success : string := "#10B981".
Definition THEME_warning : string := "#FBBF24".

Inductive Style := h2 | normal.

(** [DetailField]; [colorMap] is an object literal, as its own
    properties. *)
Record DetailField := {
  key : Js.str;
  label : string;
  style : option Style;
  colorMap : option (list (Js.str * string))
}.

(** [data[key]] for a task; [None] is [undefined] or [null]. *)
Definition property (data : Task) (key : Js.str) : option Js.str :=
  if Js.eqb key (Js.lit "id") then Some (id data)
  else if Js.eqb key (Js.lit "title") then Some (title data)
  else if Js.eqb key (Js.lit "description") then Some (description data)
  else if Js.eqb key (Js.lit "status") then Some (status_string (status data))
  else if Js.eqb key (Js.lit "dueDate") then dueDate data
  else None.

(** [colorMap[statusKey]], [undefined] used as a key being the string
    "undefined". *)
Fixpoint lookup_color (colorMap : list (Js.str * string))
    (statusKey : option Js.str) : option string :=
  match colorMap with
  | [] => None
  | (k, c) :: rest =>
      if Js.eqb k (match statusKey with
                   | Some s => s
                   | None => Js.lit "undefined"
                   end)
      then Some c
      else lookup_color rest statusKey
  end.

(** What a row shows: the status badge, the value, or the placeholder
    for a value that is missing or empty. *)
Inductive FieldValue :=
| Badge (color text : string)
| Value (style : Style) (value : Js.str)
| Placeholder (style : Style) (text : string).

Definition renderFieldValue (key : Js.str) (value : option Js.str)
    (style : Style) (colorMap : option (list (Js.str * string)))
  : FieldValue :=
  match Js.eqb key (Js.lit "status"), colorMap with
  | true, Some colors =>
      let statusKey := value in
      let color :=
        match lookup_color colors statusKey with
        | Some c => if String.eqb c "" then "#888" else c
        | None => "#888"
        end in
      let displayValue :=
        match statusKey with
        | Some s =>
            if Js.eqb s (Js.lit "completed") then "Tamamlandı"
            else "Beklemede"
        | None => "Beklemede"
        end in
      Badge color displayValue
  | _, _ =>
      match value with
      | Some v =>
          if Js.truthy v then Value style v
          else Placeholder style "Belirtilmemiş"
      | None => Placeholder style "Belirtilmemiş"
      end
  end.

Record Row := {
  rowKey : Js.str;
  rowLabel : string;
  rowValue : FieldValue
}.

Inductive Detail :=
| NotLoaded (text : string)
| Rows (rows : list Row) (due : Child (string * Js.str)).

Definition DetailView (data : option Task) (fields : list DetailField)
  : Detail :=
  match data with
  | None => NotLoaded "Detaylar yüklenemedi."
  | Some d =>
      Rows
        (map (fun field =>
                {| rowKey := key field;
                   rowLabel := label field;
                   rowValue :=
                     renderFieldValue (key field) (property d (key field))
                       (match style field with
                        | Some st => st
                        | None => normal
                        end)
                       (colorMap field) |})
             fields)
        (and_then (dueDate d) (fun date => ("Bitiş Tarihi:", date)))
  end.

Definition detailFields : list DetailField :=
  [ {| key := Js.lit "title"; label := "Başlık";
       style := Some h2; colorMap := None |};
    {| key := Js.lit "description"; label := "Açıklama";
       style := Some normal; colorMap := None |};
    {| key := Js.lit "status"; label := "Durum";
       style := None;
       colorMap := Some [(Js.lit "pending", "#F59E0B");
                         (Js.lit "completed", "#10B981")] |} ].

(** The screen: the activity indicator until the task is there, then the
    details and the three buttons. *)
Inductive Screen :=
| Spinner
| Details (view : Detail) (edit toggle delete : Button.t).

Definition render (s : State) : Screen :=
  match loading s, localTask s with
  | false, Some task =>
      let isCompleted :=
        Js.eqb (status_string (status task)) (Js.lit "completed") in
      Details
        (DetailView (localTask s) detailFields)
        (CustomButton "Düzenle" THEME_warning handleEdit None)
        (CustomButton
           (if isCompleted then "Beklemede Olarak İşaretle"
            else "Tamamlandı Olarak İşaretle")
           (if isCompleted then THEME_danger else THEME_success)
           (handleToggleStatus (taskId s) (localTask s)) None)
        (CustomButton "Sil" THEME_danger handleDelete None)
  | _, _ => Spinner
  end.

End TaskDetailScreen.

(* ================================================================== *)
(** * The running application                                          *)
(* ================================================================== *)

Local Open Scope list_scope.

Inductive Method := GET | POST | PATCH | DELETE.

Inductive Body :=
| NoBody
| TaskBody (data : NewTask.t)
| StatusBody (s : Status).

Record HttpRequest := {
  method : Method;
  url : Js.str;
  body : Body
}.

Definition tasks_url : Js.str := Js.lit "/api/tasks".
Definition task_url (taskId : Js.str) : Js.str :=
  Js.lit "/api/tasks/" ++ taskId.
Definition status_url (taskId : Js.str) : Js.str :=
  Js.lit "/api/tasks/" ++ taskId ++ Js.lit "/status".

Definition request_of (m : Mutation) : HttpRequest :=
  match m with
  | Post data => {| method := POST; url := tasks_url; body := TaskBody data |}
  | Patch i s => {| method := PATCH; url := status_url i; body := StatusBody s |}
  | Delete i => {| method := DELETE; url := task_url i; body := NoBody |}
  end.

(** An [async] function suspended at an [await] on the network. *)
Inductive Suspended (R : Type) : Type :=
| OnTasks (k : Result (list Task) -> Prog R)
| OnTask (taskId : Js.str) (k : Result Task -> Prog R)
| OnSend (m : Mutation) (k : Result unit -> Prog R).
Arguments OnTasks {R} k.
Arguments OnTask {R} taskId k.
Arguments OnSend {R} m k.

Record World := {
  store : TaskProvider.State;
  addScreen : option AddTaskScreen.State;
  detailScreen : option TaskDetailScreen.State;
  (** what the application did to the outside, oldest first *)
  requests : list HttpRequest;
  alerts : list (string * string);
  console : list string;
  navigations : list NavCall;
  (** the requests not yet answered, by request number *)
  inflight : list (nat * Suspended unit)
}.

(** The cached task collection and the loading flag. *)
Definition cache (w : World) : list Task := TaskProvider.tasks (store w).
Definition isLoading (w : World) : bool := TaskProvider.isLoading (store w).

Definition initial : World :=
  {| store := TaskProvider.initial; addScreen := None; detailScreen := None;
     requests := []; alerts := []; console := []; navigations := [];
     inflight := [] |}.

Definition with_store (s : TaskProvider.State) (w : World) : World :=
  {| store := s; addScreen := addScreen w; detailScreen := detailScreen w;
     requests := requests w; alerts := alerts w; console := console w;
     navigations := navigations w; inflight := inflight w |}.

Definition with_addScreen (s : option AddTaskScreen.State) (w : World) : World :=
  {| store := store w; addScreen := s; detailScreen := detailScreen w;
     requests := requests w; alerts := alerts w; console := console w;
     navigations := navigations w; inflight := inflight w |}.

Definition with_detailScreen (s : option TaskDetailScreen.State) (w : World)
  : World :=
  {| store := store w; addScreen := addScreen w; detailScreen := s;
     requests := requests w; alerts := alerts w; console := console w;
     navigations := navigations w; inflight := inflight w |}.

Definition with_requests (l : list HttpRequest) (w : World) : World :=
  {| store := store w; addScreen := addScreen w; detailScreen := detailScreen w;
     requests := l; alerts := alerts w; console := console w;
     navigations := navigations w; inflight := inflight w |}.

Definition with_alerts (l : list (string * string)) (w : World) : World :=
  {| store := store w; addScreen := addScreen w; detailScreen := detailScreen w;
     requests := requests w; alerts := l; console := console w;
     navigations := navigations w; inflight := inflight w |}.

Definition with_console (l : list string) (w : World) : World :=
  {| store := store w; addScreen := addScreen w; detailScreen := detailScreen w;
     requests := requests w; alerts := alerts w; console := l;
     navigations := navigations w; inflight := inflight w |}.

Definition with_navigations (l : list NavCall) (w : World) : World :=
  {| store := store w; addScreen := addScreen w; detailScreen := detailScreen w;
     requests := requests w; alerts := alerts w; console := console w;
     navigations := l; inflight := inflight w |}.

Definition with_inflight (l : list (nat * Suspended unit)) (w : World) : World :=
  {| store := store w; addScreen := addScreen w; detailScreen := detailScreen w;
     requests := requests w; alerts := alerts w; console := console w;
     navigations := navigations w; inflight := l |}.

(** A state setter of a screen that was never mounted does nothing. *)
Definition perform (a : Action) (w : World) : World :=
  match a with
  | setTasks data =>
      with_store {| TaskProvider.tasks := data;
                    TaskProvider.isLoading := isLoading w |} w
  | setIsLoading b =>
      with_store {| TaskProvider.tasks := cache w;
                    TaskProvider.isLoading := b |} w
  | setIsSaving b =>
      with_addScreen
        (option_map (fun s =>
           {| AddTaskScreen.title := AddTaskScreen.title s;
              AddTaskScreen.description := AddTaskScreen.description s;
              AddTaskScreen.dueDate := AddTaskScreen.dueDate s;
              AddTaskScreen.isSaving := b |}) (addScreen w)) w
  | setLocalTask t =>
      with_detailScreen
        (option_map (fun s =>
           {| TaskDetailScreen.taskId := TaskDetailScreen.taskId s;
              TaskDetailScreen.localTask := t;
              TaskDetailScreen.loading := TaskDetailScreen.loading s |})
           (detailScreen w)) w
  | setLoading b =>
      with_detailScreen
        (option_map (fun s =>
           {| TaskDetailScreen.taskId := TaskDetailScreen.taskId s;
              TaskDetailScreen.localTask := TaskDetailScreen.localTask s;
              TaskDetailScreen.loading := b |})
           (detailScreen w)) w
  | Alert_alert h m => with_alerts (alerts w ++ [(h, m)]) w
  | console_error m => with_console (console w ++ [m]) w
  | navigation c => with_navigations (navigations w ++ [c]) w
  end.

(** Sending a request: it gets the next request number. *)
Definition send (r : HttpRequest) (w : World) : World :=
  with_requests (requests w ++ [r]) w.

Inductive Outcome (R : Type) : Type :=
| Done (r : R)
| Failed (e : Error)
| Waiting (n : nat) (s : Suspended R).
Arguments Done {R} r.
Arguments Failed {R} e.
Arguments Waiting {R} n s.

(** A suspended function waits in [inflight]; a promise that is settled,
    or rejected with nobody awaiting it, leaves nothing behind. *)
Definition park (o : Outcome unit) (w : World) : World :=
  match o with
  | Waiting n s => with_inflight (inflight w ++ [(n, s)]) w
  | _ => w
  end.

(** Runs [p] up to its first [await] on the network. *)
Fixpoint run {R : Type} (p : Prog R) (w : World) : Outcome R * World :=
  match p with
  | Ret r => (Done r, w)
  | Throw e => (Failed e, w)
  | Do a k => run k (perform a w)
  | AwaitTasks k =>
      (Waiting (List.length (requests w)) (OnTasks k),
       send {| method := GET; url := tasks_url; body := NoBody |} w)
  | AwaitTask i k =>
      (Waiting (List.length (requests w)) (OnTask i k),
       send {| method := GET; url := task_url i; body := NoBody |} w)
  | AwaitSend m k =>
      (Waiting (List.length (requests w)) (OnSend m k), send (request_of m) w)
  | Call q k =>
      let (o, w') := run q w in run k (park o w')
  end.

(** A handler called by React or by the event loop: nobody awaits it. *)
Definition spawn (p : Prog unit) (w : World) : World :=
  let (o, w') := run p w in park o w'.

Fixpoint lookup {A : Type} (n : nat) (l : list (nat * A)) : option A :=
  match l with
  | [] => None
  | (m, a) :: l' => if Nat.eqb n m then Some a else lookup n l'
  end.

Fixpoint remove {A : Type} (n : nat) (l : list (nat * A)) : list (nat * A) :=
  match l with
  | [] => []
  | (m, a) :: l' => if Nat.eqb n m then remove n l' else (m, a) :: remove n l'
  end.

(** What the server answers, by kind of request. *)
Inductive Response :=
| TasksResponse (r : Result (list Task))
| TaskResponse (r : Result Task)
| EmptyResponse (r : Result unit).

Inductive Event :=
(* TaskProvider: the effect that runs [fetchTasks] once mounted *)
| ProviderMounted
(* HomeScreen *)
| PullToRefresh
| PressTask (taskId : Js.str)
| PressAdd
(* AddTaskScreen *)
| AddScreenMounted (tz : JsDate.TimeZone) (now : Z)
| ChangeTitle (text : Js.str)
| ChangeDescription (text : Js.str)
| ConfirmDate (newDate : JsDate.Date)
| PressSave
(* TaskDetailScreen *)
| DetailScreenMounted (taskId : Js.str)
| PressToggle
| PressDelete
| ConfirmDelete
| PressEdit
(* the back button of the two headers *)
| PressBack
(* the network *)
| Resolve (n : nat) (r : Response).

Definition resolve (n : nat) (r : Response) (w : World) : World :=
  match lookup n (inflight w) with
  | None => w
  | Some s =>
      let w' := with_inflight (remove n (inflight w)) w in
      match s, r with
      | OnTasks k, TasksResponse x => spawn (k x) w'
      | OnTask _ k, TaskResponse x => spawn (k x) w'
      | OnSend _ k, EmptyResponse x => spawn (k x) w'
      | _, _ => w
      end
  end.

Definition step (w : World) (e : Event) : World :=
  match e with
  | ProviderMounted => spawn TaskProvider.fetchTasks w
  | PullToRefresh => spawn TaskProvider.fetchTasks w
  | PressTask i => spawn (HomeScreen.handlePressTask i) w
  | PressAdd => spawn HomeScreen.pressAdd w
  | AddScreenMounted tz now =>
      with_addScreen (Some (AddTaskScreen.initial tz now)) w
  | ChangeTitle text =>
      with_addScreen
        (option_map (fun s =>
           {| AddTaskScreen.title := text;
              AddTaskScreen.description := AddTaskScreen.description s;
              AddTaskScreen.dueDate := AddTaskScreen.dueDate s;
              AddTaskScreen.isSaving := AddTaskScreen.isSaving s |})
           (addScreen w)) w
  | ChangeDescription text =>
      with_addScreen
        (option_map (fun s =>
           {| AddTaskScreen.title := AddTaskScreen.title s;
              AddTaskScreen.description := text;
              AddTaskScreen.dueDate := AddTaskScreen.dueDate s;
              AddTaskScreen.isSaving := AddTaskScreen.isSaving s |})
           (addScreen w)) w
  | ConfirmDate d =>
      with_addScreen
        (option_map (fun s =>
           {| AddTaskScreen.title := AddTaskScreen.title s;
              AddTaskScreen.description := AddTaskScreen.description s;
              AddTaskScreen.dueDate := d;
              AddTaskScreen.isSaving := AddTaskScreen.isSaving s |})
           (addScreen w)) w
  | PressSave =>
      match addScreen w with
      | None => w
      | Some s =>
          (* the button is disabled while [isSaving] *)
          if AddTaskScreen.isSaving s then w
          else spawn (AddTaskScreen.handleSave (AddTaskScreen.title s)
                        (AddTaskScreen.description s)
                        (AddTaskScreen.dueDate s)) w
      end
  | DetailScreenMounted i =>
      spawn (TaskDetailScreen.fetchDetail i)
        (with_detailScreen (Some (TaskDetailScreen.initial i)) w)
  | PressToggle =>
      match detailScreen w with
      | None => w
      | Some s =>
          (* the buttons are rendered once the task is loaded *)
          match TaskDetailScreen.loading s, TaskDetailScreen.localTask s with
          | false, Some _ =>
              spawn (TaskDetailScreen.handleToggleStatus
                       (TaskDetailScreen.taskId s)
                       (TaskDetailScreen.localTask s)) w
          | _, _ => w
          end
      end
  | PressDelete =>
      match detailScreen w with
      | None => w
      | Some s =>
          match TaskDetailScreen.loading s, TaskDetailScreen.localTask s with
          | false, Some _ => spawn TaskDetailScreen.handleDelete w
          | _, _ => w
          end
      end
  | ConfirmDelete =>
      match detailScreen w with
      | None => w
      | Some s => spawn (TaskDetailScreen.confirmDelete
                           (TaskDetailScreen.taskId s)) w
      end
  | PressEdit =>
      match detailScreen w with
      | None => w
      | Some s =>
          match TaskDetailScreen.loading s, TaskDetailScreen.localTask s with
          | false, Some _ => spawn TaskDetailScreen.handleEdit w
          | _, _ => w
          end
      end
  | PressBack => spawn (act (navigation goBack)) w
  | Resolve n r => resolve n r w
  end.

Fixpoint steps (w : World) (es : list Event) : World :=
  match es with
  | [] => w
  | e :: es' => steps (step w e) es'
  end.

(** The worlds the application can be in. *)
Inductive reachable : World -> Prop :=
| reachable_initial : reachable initial
| reachable_step (w : World) (e : Event) :
    reachable w -> reachable (step w e).

(** The suspension a call of [p] reaches first: [p] itself at its first
    [await], the functions it calls on the way being suspended on their
    own. *)
Fixpoint first_await {R : Type} (p : Prog R) : option (Suspended R) :=
  match p with
  | Ret _ => None
  | Throw _ => None
  | Do _ k => first_await k
  | AwaitTasks k => Some (OnTasks k)
  | AwaitTask i k => Some (OnTask i k)
  | AwaitSend m k => Some (OnSend m k)
  | Call _ k => first_await k
  end.

(** [s] is a call of [p], suspended at its [await]. *)
Definition awaiting {R : Type} (p : Prog R) (s : Suspended R) : Prop :=
  first_await p = Some s.

(** The requests in flight of a running application are calls of its five
    functions that await the network. *)
Inductive issued : Suspended unit -> Prop :=
| issued_fetchTasks s :
    awaiting TaskProvider.fetchTasks s -> issued s
| issued_fetchDetail i s :
    awaiting (TaskDetailScreen.fetchDetail i) s -> issued s
| issued_handleSave t d dd s :
    awaiting (AddTaskScreen.handleSave t d dd) s -> issued s
| issued_handleToggleStatus i lt s :
    awaiting (TaskDetailScreen.handleToggleStatus i lt) s -> issued s
| issued_confirmDelete i s :
    awaiting (TaskDetailScreen.confirmDelete i) s -> issued s.

(** Sample data. *)
Module Sample.
Definition task1 : Task :=
  {| id := Js.lit "1"; title := Js.lit "A"; description := [];
     status := pending; dueDate := None |}.
Definition task1_done : Task :=
  TaskDetailScreen.with_status task1 completed.
Definition task2 : Task :=
  {| id := Js.lit "2"; title := Js.lit "B"; description := Js.lit "b";
     status := completed; dueDate := Some (Js.lit "2026-11-05") |}.
(** UTC+3, the whole year round. *)
Definition istanbul : JsDate.TimeZone := fun _ _ => 10800000%Z.
(** 2026-11-04T00:00:00.123Z *)
Definition now : Z := 1793750400123.
End Sample.

(** No [TaskProvider] among the ancestors. *)
Definition outside_provider (ancestors : list React.Ancestor) : Prop :=
  Forall (fun a => a = React.OtherComponent) ancestors.

(** ** What a call does before it is suspended

    The synchronous effects a call of [p] performs up to its first
    [await], those of the functions it calls included, in order. *)
Fixpoint actions {R : Type} (p : Prog R) : list Action :=
  match p with
  | Do a k => a :: actions k
  | Call q k => actions q ++ actions k
  | _ => []
  end.

(** The requests it sends. *)
Fixpoint sends {R : Type} (p : Prog R) : list HttpRequest :=
  match p with
  | Do _ k => sends k
  | AwaitTasks _ => [{| method := GET; url := tasks_url; body := NoBody |}]
  | AwaitTask i _ => [{| method := GET; url := task_url i; body := NoBody |}]
  | AwaitSend m _ => [request_of m]
  | Call q k => sends q ++ sends k
  | _ => []
  end.

(** The functions it calls without awaiting them, as they are suspended. *)
Fixpoint calls {R : Type} (p : Prog R) : list (Suspended unit) :=
  match p with
  | Do _ k => calls k
  | Call q k =>
      calls q
      ++ match first_await q with Some s => [s] | None => [] end
      ++ calls k
  | _ => []
  end.

(** The cache after a sequence of actions: the last [setTasks] wins. *)
Definition cache_after (c : list Task) (l : list Action) : list Task :=
  fold_left (fun c a => match a with setTasks data => data | _ => c end) l c.

Definition navigation_calls (l : list Action) : list NavCall :=
  flat_map (fun a => match a with navigation c => [c] | _ => [] end) l.

(** A creation request as the Create screen sends it: a title that is not
    blank, and a due date. *)
Definition creation_checked (r : HttpRequest) : Prop :=
  method r = POST ->
  exists data date,
    body r = TaskBody data /\
    Js.blank (NewTask.title data) = false /\
    NewTask.dueDate data = Some date.

(** The invariant of the running application: every request in flight
    was issued by one of the five awaiting functions and has a number
    already given out, and every creation request sent was checked. *)
Definition consistent (w : World) : Prop :=
  (forall n s, In (n, s) (inflight w) ->
     issued s /\ n < List.length (requests w)) /\
  Forall creation_checked (requests w).

(** A handler the application may start: so are the functions it calls and
    the requests it sends. *)
Definition handler (p : Prog unit) : Prop :=
  (forall s, awaiting p s -> issued s) /\
  Forall issued (calls p) /\
  Forall creation_checked (sends p).

(** ** The form of a calendar date *)

Definition is_digit (c : N) : bool := N.leb 48 c && N.leb c 57.

(** [YYYY-MM-DD]: four digits, a hyphen, two digits, a hyphen, two
    digits, and nothing more. *)
Definition is_YYYY_MM_DD (s : Js.str) : bool :=
  match s with
  | [y1; y2; y3; y4; h1; m1; m2; h2; d1; d2] =>
      is_digit y1 && is_digit y2 && is_digit y3 && is_digit y4
      && N.eqb h1 45
      && is_digit m1 && is_digit m2
      && N.eqb h2 45
      && is_digit d1 && is_digit d2
  | _ => false
  end.


(** The three operations of the store that change the server, each with
    the request it sends. *)
Inductive mutation : Prog unit -> Mutation -> Prop :=
| mutation_createTask data :
    mutation (TaskProvider.createTask data) (Post data)
| mutation_updateTaskStatus taskId s :
    mutation (TaskProvider.updateTaskStatus taskId s) (Patch taskId s)
| mutation_deleteTask taskId :
    mutation (TaskProvider.deleteTask taskId) (Delete taskId).

(** A response that reports a failure. *)
Definition failure (r : Response) : Prop :=
  match r with
  | TasksResponse (Rejected _) => True
  | TaskResponse (Rejected _) => True
  | EmptyResponse (Rejected _) => True
  | _ => False
  end.

(** The first instant of the year 10000, UTC. *)
Definition year_10000 : Z := 253402300800000.

(** A call of [fetchTasks] awaiting the collection. *)
Definition resync : Suspended unit :=
  match first_await TaskProvider.fetchTasks with
  | Some s => s
  | None => OnTasks (fun _ => Ret tt)
  end.

(** ** Tactics *)

(** Closes the side conditions of [handler] for a program that computes. *)
Ltac handler_auto :=
  unfold handler; simpl;
  repeat match goal with
    | |- _ /\ _ => split
    | |- forall _, _ => intro
    | H : awaiting _ _ |- _ => unfold awaiting in H; simpl in H
    | H : None = Some _ |- _ => discriminate H
    | H : Some _ = Some _ |- _ => injection H as <-
    | |- Forall _ [] => constructor
    | |- Forall _ (_ :: _) => constructor
    | |- issued _ => apply issued_fetchTasks; reflexivity
    | |- creation_checked _ => intro; try discriminate
    end.

(** Case analysis on who issued a request in flight: [H : issued s]
    becomes the suspended function itself, for each of the five. *)
Ltac issued_cases H :=
  let s := fresh "s" in
  let t := fresh "t" in
  let d := fresh "d" in
  let dd := fresh "dd" in
  let lt := fresh "lt" in
  let i := fresh "i" in
  destruct H as [s H|i s H|t d dd s H|i lt s H|i s H]; unfold awaiting in H;
  [ simpl in H
  | simpl in H
  | unfold AddTaskScreen.handleSave, AddTaskScreen.dateToSend in H;
    destruct (negb (Js.truthy (Js.trim t))) eqn:Etitle; [discriminate H|];
    destruct (JsDate.toISOString dd) as [iso|]; [|discriminate H];
    simpl in H
  | destruct lt as [task|]; [|discriminate H]; simpl in H
  | simpl in H ];
  injection H as <-.

(** Closes [Forall] of "is not a [setTasks]" on a list that computes. *)
Ltac quiet :=
  repeat (constructor; [intros ? ?; discriminate|]); constructor.

(** The answer has the kind the suspended call awaits. *)
Definition answers (s : Suspended unit) (r : Response) : Prop :=
  match s, r with
  | OnTasks _, TasksResponse _ => True
  | OnTask _ _, TaskResponse _ => True
  | OnSend _ _, EmptyResponse _ => True
  | _, _ => False
  end.

(** ** Request numbers and kinds *)



(** The five requests of the API, as the application awaits them. *)
Inductive Kind := ListTasks | ReadTask | CreateTask | UpdateStatus | RemoveTask.

Definition kind {R : Type} (s : Suspended R) : Kind :=
  match s with
  | OnTasks _ => ListTasks
  | OnTask _ _ => ReadTask
  | OnSend (Post _) _ => CreateTask
  | OnSend (Patch _ _) _ => UpdateStatus
  | OnSend (Delete _) _ => RemoveTask
  end.

(** A request of kind [k] has been sent and not yet answered. *)
Definition in_flight (k : Kind) (w : World) : Prop :=
  exists n s, In (n, s) (inflight w) /\ kind s = k.


(** ** Tactics for the busy flags *)







(** Pressing a rendered button. *)
Definition press (b : Button.t) (w : World) : World :=
  if Button.disabled b then w else spawn (Button.action b) w.

(** A value as a row shows it: the placeholder for the empty string. *)
Definition shown (st : TaskDetailScreen.Style) (v : Js.str)
  : TaskDetailScreen.FieldValue :=
  match v with
  | [] => TaskDetailScreen.Placeholder st "Belirtilmemiş"
  | _ :: _ => TaskDetailScreen.Value st v
  end.

(* ================================================================== *)
(** * Examples                                                         *)
(* ================================================================== *)

Example iso_2026 :
  JsDate.toISOString (JsDate.TimeValue 1793750400123)
  = Some (Js.lit "2026-11-04T00:00:00.123Z").
Proof. reflexivity. Qed.

(* ================================================================== *)
(** * The store: fetching                                              *)
(* ================================================================== *)

Lemma spawn_fetchTasks (w : World) :
  exists s,
    awaiting TaskProvider.fetchTasks s /\
    spawn TaskProvider.fetchTasks w
    = with_inflight (inflight w ++ [(List.length (requests w), s)])
        (send {| method := GET; url := tasks_url; body := NoBody |}
           (perform (setIsLoading true) w)).
Proof. eexists; split; reflexivity. Qed.

(** C1.  A call of [fetchTasks] whose request succeeds leaves the cached
    collection equal to the sequence the server returned for
    [GET /api/tasks]: same tasks, same order, nothing filtered.  Whatever
    happened while the request was in flight, the response puts the data in
    the cache, clears the loading flag and changes nothing else. *)
Theorem fetchTasks_success_replaces_cache
    (w : World) (n : nat) (s : Suspended unit) (data : list Task) :
  awaiting TaskProvider.fetchTasks s ->
  lookup n (inflight w) = Some s ->
  let w' := step w (Resolve n (TasksResponse (Ok data))) in
  cache w' = data /\
  isLoading w' = false /\
  w' = with_store {| TaskProvider.tasks := data;
                     TaskProvider.isLoading := false |}
         (with_inflight (remove n (inflight w)) w).
Proof.
  intros Hs Hn.
  unfold awaiting in Hs. simpl in Hs. injection Hs as <-.
  simpl. unfold resolve. rewrite Hn.
  repeat split.
Qed.

Lemma fetchTasks_success_replaces_cache_witness :
  cache (steps initial
           [ProviderMounted;
            Resolve 0 (TasksResponse (Ok [Sample.task2; Sample.task1]))])
  = [Sample.task2; Sample.task1].
Proof.
  exact (proj1 (@fetchTasks_success_replaces_cache
                  (step initial ProviderMounted) 0 _
                  [Sample.task2; Sample.task1] eq_refl eq_refl)).
Defined.

(** C3.  A call of [fetchTasks] whose request fails leaves the cached
    collection as it was, logs the error, shows the connection alert and
    clears the loading flag; the flag is cleared on success as well. *)
Theorem fetchTasks_failure_keeps_cache
    (w : World) (n : nat) (s : Suspended unit) (e : Error) :
  awaiting TaskProvider.fetchTasks s ->
  lookup n (inflight w) = Some s ->
  let w' := step w (Resolve n (TasksResponse (Rejected e))) in
  cache w' = cache w /\
  alerts w' = alerts w ++
    [("Bağlantı Hatası",
      "Görevler yüklenemedi. API'nin çalıştığından emin olun.")] /\
  isLoading w' = false /\
  requests w' = requests w /\
  navigations w' = navigations w /\
  forall data,
    isLoading (step w (Resolve n (TasksResponse (Ok data)))) = false.
Proof.
  intros Hs Hn.
  unfold awaiting in Hs. simpl in Hs. injection Hs as <-.
  simpl. unfold resolve. rewrite Hn.
  repeat split.
Qed.

Lemma fetchTasks_failure_keeps_cache_witness :
  cache (steps initial
           [ProviderMounted;
            Resolve 0 (TasksResponse (Ok [Sample.task1]));
            PullToRefresh;
            Resolve 1 (TasksResponse (Rejected NetworkError))])
  = [Sample.task1].
Proof.
  exact (proj1 (@fetchTasks_failure_keeps_cache
                  (steps initial
                     [ProviderMounted;
                      Resolve 0 (TasksResponse (Ok [Sample.task1]));
                      PullToRefresh]) 1 _ NetworkError eq_refl eq_refl)).
Defined.

(* ================================================================== *)
(** * The store: lookup and the hook                                   *)
(* ================================================================== *)

Lemma Js_eqb_eq (a b : Js.str) : Js.eqb a b = true <-> a = b.
Proof.
  revert b. induction a as [|x a IH]; intros [|y b]; simpl;
    try (split; [discriminate | discriminate]); try tauto.
  rewrite andb_true_iff, N.eqb_eq, IH.
  split; [intros [-> ->]; reflexivity | intros [= -> ->]; auto].
Qed.

Lemma getTaskById_none (tasks : list Task) (taskId : Js.str) :
  TaskProvider.getTaskById tasks taskId = None <->
  forall t, In t tasks -> id t <> taskId.
Proof.
  unfold TaskProvider.getTaskById. split.
  - intros H t Hin Heq.
    apply (find_none _ _ H) in Hin. simpl in Hin.
    apply Js_eqb_eq in Heq. congruence.
  - intros H. induction tasks as [|t l IH]; simpl; [reflexivity|].
    destruct (Js.eqb (id t) taskId) eqn:E.
    + apply Js_eqb_eq in E. exfalso. apply (H t); simpl; auto.
    + apply IH. intros t' Hin. apply H. simpl; auto.
Qed.

(** C4.  [getTaskById] is a lookup in the cached collection and nothing
    else.  It is a function of the cached tasks alone (it is not an
    asynchronous program, so it sends nothing and sets no state); it is
    [undefined] exactly when no cached task has the id, and otherwise it is
    a cached task with that id. *)
Theorem getTaskById_pure_lookup (s : TaskProvider.State) (taskId : Js.str) :
  let found := TaskContextType.getTaskById (TaskProvider.value s) taskId in
  found = find (fun t => Js.eqb (id t) taskId) (TaskProvider.tasks s) /\
  (found = None <->
   forall t, In t (TaskProvider.tasks s) -> id t <> taskId) /\
  (forall t, found = Some t ->
     In t (TaskProvider.tasks s) /\ id t = taskId) /\
  (forall s', TaskProvider.tasks s' = TaskProvider.tasks s ->
     TaskContextType.getTaskById (TaskProvider.value s') taskId = found).
Proof.
  simpl. repeat split.
  - apply getTaskById_none.
  - apply getTaskById_none.
  - unfold TaskProvider.getTaskById in H. apply find_some in H. tauto.
  - unfold TaskProvider.getTaskById in H. apply find_some in H.
    apply Js_eqb_eq. tauto.
  - intros s' ->. reflexivity.
Qed.

Example getTaskById_hit :
  TaskProvider.getTaskById [Sample.task1; Sample.task2] (Js.lit "2")
  = Some Sample.task2.
Proof. reflexivity. Qed.

Example getTaskById_miss :
  TaskProvider.getTaskById [Sample.task1; Sample.task2] (Js.lit "3") = None.
Proof. reflexivity. Qed.

(** C9.  [useTasks] in a component with no [TaskProvider] above it throws
    the error 'useTasks must be used within a TaskProvider'; under a
    [TaskProvider] it returns the store object of the nearest one, with
    all its seven members: the two state cells, the four operations and
    the lookup. *)
Theorem useTasks_requires_provider (ancestors : list React.Ancestor) :
  (outside_provider ancestors ->
   useTasks ancestors
   = Rejected (Err "useTasks must be used within a TaskProvider")) /\
  (forall inner s outer,
     ancestors = inner ++ React.TaskProvider_ s :: outer ->
     outside_provider inner ->
     useTasks ancestors
     = Ok (TaskContextType.make
             (TaskProvider.tasks s) TaskProvider.fetchTasks
             (TaskProvider.isLoading s) TaskProvider.createTask
             TaskProvider.updateTaskStatus TaskProvider.deleteTask
             (TaskProvider.getTaskById (TaskProvider.tasks s)))).
Proof.
  unfold useTasks. split.
  - induction 1 as [|a l Ha _ IH]; simpl; [reflexivity|].
    subst a. exact IH.
  - intros inner s outer -> Hin.
    induction Hin as [|a l Ha _ IH]; simpl; [reflexivity|].
    subst a. exact IH.
Qed.

Example useTasks_in_app :
  useTasks [React.OtherComponent; React.OtherComponent;
            React.TaskProvider_ TaskProvider.initial; React.OtherComponent]
  = Ok (TaskProvider.value TaskProvider.initial).
Proof. reflexivity. Qed.

(* ================================================================== *)
(** * What a call does before it is suspended                          *)
(* ================================================================== *)

Lemma requests_perform (a : Action) (w : World) :
  requests (perform a w) = requests w.
Proof. destruct a; reflexivity. Qed.

Lemma inflight_perform (a : Action) (w : World) :
  inflight (perform a w) = inflight w.
Proof. destruct a; reflexivity. Qed.

Lemma requests_park (o : Outcome unit) (w : World) :
  requests (park o w) = requests w.
Proof. destruct o; reflexivity. Qed.

Lemma cache_park (o : Outcome unit) (w : World) :
  cache (park o w) = cache w.
Proof. destruct o; reflexivity. Qed.

Lemma navigations_park (o : Outcome unit) (w : World) :
  navigations (park o w) = navigations w.
Proof. destruct o; reflexivity. Qed.

Lemma run_requests (R : Type) (p : Prog R) (w : World) :
  requests (snd (run p w)) = requests w ++ sends p.
Proof.
  revert w. induction p as [R r|R e|R a k IH|R k _|R i k _|R m k _|R q IHq k IHk];
    intros w; simpl; try (rewrite app_nil_r; reflexivity); try reflexivity.
  - rewrite IH, requests_perform. reflexivity.
  - specialize (IHq w). destruct (run q w) as [o w1]. simpl in IHq.
    rewrite IHk, requests_park, IHq, app_assoc. reflexivity.
Qed.

Lemma run_cache (R : Type) (p : Prog R) (w : World) :
  cache (snd (run p w)) = cache_after (cache w) (actions p).
Proof.
  revert w. induction p as [R r|R e|R a k IH|R k _|R i k _|R m k _|R q IHq k IHk];
    intros w; simpl; try reflexivity.
  - rewrite IH. destruct a; reflexivity.
  - specialize (IHq w). destruct (run q w) as [o w1]. simpl in IHq.
    unfold cache_after in *. rewrite fold_left_app, <- IHq, IHk, cache_park.
    reflexivity.
Qed.

Lemma run_navigations (R : Type) (p : Prog R) (w : World) :
  navigations (snd (run p w))
  = navigations w ++ navigation_calls (actions p).
Proof.
  revert w. induction p as [R r|R e|R a k IH|R k _|R i k _|R m k _|R q IHq k IHk];
    intros w; simpl; try (rewrite app_nil_r; reflexivity).
  - rewrite IH. destruct a; simpl; try reflexivity.
    rewrite <- app_assoc. reflexivity.
  - specialize (IHq w). destruct (run q w) as [o w1]. simpl in IHq.
    unfold navigation_calls in *.
    rewrite flat_map_app, IHk, navigations_park, IHq, app_assoc. reflexivity.
Qed.

Lemma run_waiting (R : Type) (p : Prog R) (w : World) n s :
  fst (run p w) = Waiting n s ->
  awaiting p s /\ n < List.length (requests (snd (run p w))).
Proof.
  unfold awaiting.
  revert w. induction p as [R r|R e|R a k IH|R k _|R i k _|R m k _|R q IHq k IHk];
    intros w; simpl; try discriminate.
  - intros H. apply IH in H. exact H.
  - intros [= <- <-]. rewrite length_app. simpl. split; [reflexivity | lia].
  - intros [= <- <-]. rewrite length_app. simpl. split; [reflexivity | lia].
  - intros [= <- <-]. rewrite length_app. simpl. split; [reflexivity | lia].
  - destruct (run q w) as [o w1]. intros H. apply IHk in H. exact H.
Qed.

Lemma run_grows (R : Type) (p : Prog R) (w : World) :
  List.length (requests w) <= List.length (requests (snd (run p w))).
Proof. rewrite run_requests, length_app. lia. Qed.

Lemma run_inflight (R : Type) (p : Prog R) (w : World) n s :
  In (n, s) (inflight (snd (run p w))) ->
  In (n, s) (inflight w) \/
  (In s (calls p) /\ n < List.length (requests (snd (run p w)))).
Proof.
  revert w. induction p as [R r|R e|R a k IH|R k _|R i k _|R m k _|R q IHq k IHk];
    intros w; simpl; auto.
  - intros H. apply IH in H. rewrite inflight_perform in H. exact H.
  - pose proof (IHq w) as Hq. pose proof (@run_waiting _ q w) as Hw.
    destruct (run q w) as [o w1]. simpl in Hq, Hw.
    intros H. apply IHk in H.
    pose proof (run_grows k (park o w1)) as Hg. rewrite requests_park in Hg.
    destruct H as [H | [H Hn]].
    + destruct o as [r|e|n' s']; simpl in H.
      * apply Hq in H. destruct H as [H | [H Hn]]; [auto|].
        right. split; [apply in_or_app; auto | lia].
      * apply Hq in H. destruct H as [H | [H Hn]]; [auto|].
        right. split; [apply in_or_app; auto | lia].
      * apply in_app_or in H. destruct H as [H | [[= <- <-] | []]].
        -- apply Hq in H. destruct H as [H | [H Hn]]; [auto|].
           right. split; [apply in_or_app; auto | lia].
        -- destruct (Hw n' s' eq_refl) as [Hs Hn]. unfold awaiting in Hs.
           right. split; [| lia].
           apply in_or_app. right. rewrite Hs. simpl. auto.
    + right. split; [| exact Hn].
      apply in_or_app. right. apply in_or_app. auto.
Qed.

(* ================================================================== *)
(** * White space                                                      *)
(* ================================================================== *)

Lemma trimStart_blank (s : Js.str) :
  Js.blank s = true -> Js.trimStart s = [].
Proof.
  induction s as [|c s IH]; simpl; [reflexivity|].
  destruct (Js.is_white_space c); simpl; [exact IH | discriminate].
Qed.

Lemma trimStart_not_blank (s : Js.str) :
  Js.blank s = false -> Js.blank (Js.trimStart s) = false.
Proof.
  induction s as [|c s IH]; simpl; [discriminate|].
  destruct (Js.is_white_space c) eqn:E; simpl; [exact IH|].
  rewrite E. reflexivity.
Qed.

Lemma blank_rev (s : Js.str) : Js.blank (rev s) = Js.blank s.
Proof.
  unfold Js.blank. induction s as [|c s IH]; simpl; [reflexivity|].
  rewrite forallb_app, IH. simpl. rewrite andb_true_r, andb_comm. reflexivity.
Qed.

(** [!title.trim()] holds exactly for the blank titles. *)
Lemma trim_truthy (s : Js.str) :
  Js.truthy (Js.trim s) = negb (Js.blank s).
Proof.
  unfold Js.trim, Js.trimEnd.
  destruct (Js.blank s) eqn:E; simpl.
  - rewrite (trimStart_blank _ E). reflexivity.
  - assert (H : Js.blank (rev (Js.trimStart (rev (Js.trimStart s)))) = false).
    { rewrite blank_rev. apply trimStart_not_blank.
      rewrite blank_rev. apply trimStart_not_blank. exact E. }
    destruct (rev (Js.trimStart (rev (Js.trimStart s)))); [discriminate|].
    reflexivity.
Qed.

(* ================================================================== *)
(** * The invariant of the running application                         *)
(* ================================================================== *)

Lemma spawn_run (p : Prog unit) (w : World) :
  spawn p w = park (fst (run p w)) (snd (run p w)).
Proof. unfold spawn. destruct (run p w); reflexivity. Qed.

Lemma requests_spawn (p : Prog unit) (w : World) :
  requests (spawn p w) = requests w ++ sends p.
Proof. rewrite spawn_run, requests_park. apply run_requests. Qed.

Lemma cache_spawn (p : Prog unit) (w : World) :
  cache (spawn p w) = cache_after (cache w) (actions p).
Proof. rewrite spawn_run, cache_park. apply run_cache. Qed.

Lemma navigations_spawn (p : Prog unit) (w : World) :
  navigations (spawn p w) = navigations w ++ navigation_calls (actions p).
Proof. rewrite spawn_run, navigations_park. apply run_navigations. Qed.

Lemma spawn_consistent (p : Prog unit) (w : World) :
  consistent w -> handler p -> consistent (spawn p w).
Proof.
  intros [Hin Hreq] (Hp & Hcalls & Hsends). split.
  - intros n s H. rewrite requests_spawn.
    rewrite spawn_run in H.
    pose proof (run_requests p w) as Hr.
    assert (Hold : In (n, s) (inflight (snd (run p w))) ->
                   issued s /\ n < List.length (requests w ++ sends p)).
    { intros H'. apply run_inflight in H'. rewrite Hr in H'.
      destruct H' as [H' | [H' Hn]].
      - apply Hin in H'. rewrite length_app. split; [tauto | lia].
      - split; [| exact Hn]. rewrite Forall_forall in Hcalls. auto. }
    pose proof (@run_waiting _ p w) as Hw. rewrite Hr in Hw.
    destruct (fst (run p w)) as [r|e|n' s']; simpl in H; auto.
    apply in_app_or in H. destruct H as [H | [[= <- <-] | []]]; auto.
    destruct (Hw n' s' eq_refl). auto.
  - rewrite requests_spawn. apply Forall_app. auto.
Qed.

Lemma in_remove (A : Type) (n m : nat) (a : A) (l : list (nat * A)) :
  In (m, a) (remove n l) -> In (m, a) l.
Proof.
  induction l as [|[k b] l IH]; simpl; [auto|].
  destruct (Nat.eqb n k); simpl; intuition.
Qed.

Lemma lookup_in (A : Type) (n : nat) (a : A) (l : list (nat * A)) :
  lookup n l = Some a -> In (n, a) l.
Proof.
  induction l as [|[k b] l IH]; simpl; [discriminate|].
  destruct (Nat.eqb n k) eqn:E.
  - intros [= ->]. apply Nat.eqb_eq in E. subst. auto.
  - auto.
Qed.

Lemma consistent_answered (n : nat) (w : World) :
  consistent w -> consistent (with_inflight (remove n (inflight w)) w).
Proof.
  intros [Hin Hreq]. split; simpl; [| exact Hreq].
  intros m s H. apply in_remove in H. auto.
Qed.

Lemma handler_fetchTasks : handler TaskProvider.fetchTasks.
Proof. handler_auto. Qed.

Lemma handler_fetchDetail (i : Js.str) :
  handler (TaskDetailScreen.fetchDetail i).
Proof.
  unfold handler. split; [| split; simpl; constructor].
  - intros s H. eapply issued_fetchDetail; exact H.
  - intro; discriminate.
  - constructor.
Qed.

Lemma sends_handleSave (t d : Js.str) (dd : JsDate.Date) :
  Forall creation_checked (sends (AddTaskScreen.handleSave t d dd)).
Proof.
  unfold AddTaskScreen.handleSave. rewrite trim_truthy.
  destruct (Js.blank t) eqn:E; simpl; [constructor|].
  unfold AddTaskScreen.dateToSend.
  destruct (JsDate.toISOString dd) as [iso|]; simpl; constructor;
    try constructor.
  intros _. eexists; eexists. split; [reflexivity|]. simpl. auto.
Qed.

Lemma calls_handleSave (t d : Js.str) (dd : JsDate.Date) :
  calls (AddTaskScreen.handleSave t d dd) = [].
Proof.
  unfold AddTaskScreen.handleSave.
  destruct (negb (Js.truthy (Js.trim t))); simpl; [reflexivity|].
  unfold AddTaskScreen.dateToSend.
  destruct (JsDate.toISOString dd) as [iso|]; reflexivity.
Qed.

Lemma handler_handleSave (t d : Js.str) (dd : JsDate.Date) :
  handler (AddTaskScreen.handleSave t d dd).
Proof.
  split; [| split].
  - intros s H. eapply issued_handleSave; exact H.
  - rewrite calls_handleSave. constructor.
  - apply sends_handleSave.
Qed.

Lemma handler_handleToggleStatus (i : Js.str) (lt : option Task) :
  handler (TaskDetailScreen.handleToggleStatus i lt).
Proof.
  split; [| split].
  - intros s H. eapply issued_handleToggleStatus; exact H.
  - destruct lt; simpl; constructor.
  - destruct lt; simpl; repeat constructor. discriminate.
Qed.

Lemma handler_confirmDelete (i : Js.str) :
  handler (TaskDetailScreen.confirmDelete i).
Proof.
  split; [| split].
  - intros s H. eapply issued_confirmDelete; exact H.
  - simpl; constructor.
  - simpl; repeat constructor. discriminate.
Qed.

Lemma handler_act (a : Action) : handler (act a).
Proof. handler_auto. Qed.

(** What a request in flight resumes is a handler again. *)
Lemma resumed_handler (s : Suspended unit) :
  issued s ->
  match s with
  | OnTasks k => forall r, handler (k r)
  | OnTask _ k => forall r, handler (k r)
  | OnSend _ k => forall r, handler (k r)
  end.
Proof.
  intros H. issued_cases H; intros [x|e]; handler_auto.
Qed.

Create HintDb handlers.
#[local] Hint Resolve handler_fetchTasks handler_fetchDetail
  handler_handleSave handler_handleToggleStatus handler_confirmDelete
  handler_act spawn_consistent : handlers.

Lemma step_consistent (w : World) (e : Event) :
  consistent w -> consistent (step w e).
Proof.
  intros H. destruct e; simpl;
    repeat match goal with
      | |- context [match ?x with _ => _ end] =>
          match x with
          | addScreen _ => idtac
          | detailScreen _ => idtac
          | AddTaskScreen.isSaving _ => idtac
          | TaskDetailScreen.loading _ => idtac
          | TaskDetailScreen.localTask _ => idtac
          end;
          destruct x eqn:?
      end;
    auto with handlers.
  unfold resolve. destruct (lookup n (inflight w)) as [s|] eqn:E; [| exact H].
  apply lookup_in in E. apply (proj1 H) in E. destruct E as [Hs _].
  apply resumed_handler in Hs.
  destruct s, r; try exact H;
    (apply spawn_consistent; [apply consistent_answered; exact H | apply Hs]).
Qed.

Lemma initial_consistent : consistent initial.
Proof. split; simpl; [intros n s [] | constructor]. Qed.

Lemma reachable_consistent (w : World) : reachable w -> consistent w.
Proof.
  induction 1 as [|w e _ IH]; [apply initial_consistent|].
  apply step_consistent. exact IH.
Qed.

(* ================================================================== *)
(** * Dates                                                            *)
(* ================================================================== *)

Section Calendar.
Import JsDate.
Local Open Scope Z_scope.

Lemma DayFromYear_succ (y : Z) :
  DayFromYear (y + 1) = DayFromYear y + DaysInYear y.
Proof.
  unfold DayFromYear, DaysInYear, is_leap.
  destruct (Z.eqb_spec (y mod 4) 0) as [E4|E4]; cbn [negb];
  [destruct (Z.eqb_spec (y mod 100) 0) as [E100|E100]; cbn [negb];
   [destruct (Z.eqb_spec (y mod 400) 0) as [E400|E400]; cbn [negb]|]|].
  all: Z.div_mod_to_equations; lia.
Qed.

Lemma DayFromYear_mono (y y' : Z) :
  y < y' -> DayFromYear y < DayFromYear y'.
Proof.
  intros H. unfold DayFromYear. Z.div_mod_to_equations. lia.
Qed.

Lemma YearFromDay_spec (d : Z) :
  DayFromYear (YearFromDay d) <= d < DayFromYear (YearFromDay d + 1).
Proof.
  unfold YearFromDay.
  set (y := 1970 + 400 * d / 146097).
  assert (Hlo : DayFromYear (y - 1) <= d).
  { unfold DayFromYear, y. Z.div_mod_to_equations; lia. }
  assert (Hhi : d < DayFromYear (y + 2)).
  { unfold DayFromYear, y. Z.div_mod_to_equations; lia. }
  destruct (DayFromYear (y + 1) <=? d) eqn:E1.
  - apply Z.leb_le in E1. replace (y + 1 + 1) with (y + 2) by lia. lia.
  - apply Z.leb_gt in E1. destruct (DayFromYear y <=? d) eqn:E2.
    + apply Z.leb_le in E2. lia.
    + apply Z.leb_gt in E2. replace (y - 1 + 1) with y by lia. lia.
Qed.

(** [YearFromTime t] is the year ECMA-262 defines: the largest [y] with
    [TimeFromYear y <= t]. *)
Lemma YearFromTime_largest (t : Z) :
  TimeFromYear (YearFromTime t) <= t /\
  forall y, TimeFromYear y <= t -> y <= YearFromTime t.
Proof.
  unfold TimeFromYear, YearFromTime.
  pose proof (YearFromDay_spec (Day t)) as [Hlo Hhi].
  assert (Hd : msPerDay * Day t <= t < msPerDay * Day t + msPerDay).
  { unfold Day, msPerDay. Z.div_mod_to_equations. lia. }
  unfold msPerDay in *. split; [lia|].
  intros y Hy.
  destruct (Z_lt_le_dec (YearFromDay (Day t)) y) as [Hlt|]; [|assumption].
  assert (DayFromYear (YearFromDay (Day t) + 1) <= DayFromYear y).
  { destruct (Z.eq_dec (YearFromDay (Day t) + 1) y) as [->|]; [lia|].
    apply Z.lt_le_incl, DayFromYear_mono. lia. }
  lia.
Qed.

Lemma MonthFromDay_range (d leap : Z) : 0 <= MonthFromDay d leap <= 11.
Proof.
  unfold MonthFromDay.
  repeat match goal with
         | |- context [if ?b then _ else _] => destruct b
         end; lia.
Qed.

(** The day within the year, and the day of the month, are in range. *)
Lemma DayWithinYear_range (t : Z) :
  0 <= DayWithinYear t < 365 + InLeapYear t.
Proof.
  unfold DayWithinYear, InLeapYear, YearFromTime.
  pose proof (YearFromDay_spec (Day t)) as H.
  rewrite DayFromYear_succ in H. unfold DaysInYear in H.
  destruct (is_leap (YearFromDay (Day t))); lia.
Qed.

Lemma DateFromTime_range (t : Z) : 1 <= DateFromTime t <= 31.
Proof.
  unfold DateFromTime, MonthFromTime.
  pose proof (DayWithinYear_range t) as H.
  assert (Hl : InLeapYear t = 0 \/ InLeapYear t = 1).
  { unfold InLeapYear. destruct (is_leap _); auto. }
  revert H Hl. generalize (DayWithinYear t) (InLeapYear t). intros d l H Hl.
  unfold MonthFromDay.
  repeat match goal with
         | |- context [if ?a <? ?b then _ else _] =>
             destruct (Z.ltb_spec a b)
         end; cbn [MonthStart]; lia.
Qed.

(** Setting the day of the month to the next one moves the local time by
    one day exactly, across the ends of months and years too. *)
Lemma setDate_next_day (tz : TimeZone) (t : Z) :
  setDate tz (TimeValue t)
    (option_map (fun n => n + 1) (getDate tz (TimeValue t)))
  = TimeClip (UTC tz (LocalTime tz t + msPerDay)).
Proof.
  unfold setDate, getDate, option_map.
  set (lt := LocalTime tz t).
  f_equal. f_equal.
  unfold MakeDate, MakeDay, DateFromTime.
  pose proof (MonthFromDay_range (DayWithinYear lt) (InLeapYear lt)) as Hm.
  fold (MonthFromTime lt) in Hm.
  rewrite (Z.div_small (MonthFromTime lt) 12) by lia.
  rewrite (Z.mod_small (MonthFromTime lt) 12) by lia.
  rewrite Z.add_0_r. fold (InLeapYear lt).
  unfold DayWithinYear, Day, TimeWithinDay.
  generalize (MonthStart (MonthFromTime lt) (InLeapYear lt)).
  generalize (DayFromYear (YearFromTime lt)).
  intros a b. pose proof (Z.div_mod lt msPerDay) as H.
  unfold msPerDay in *. lia.
Qed.

End Calendar.

Example default_date_end_of_year :
  AddTaskScreen.defaultDate Sample.istanbul 1798750400123
  = JsDate.TimeValue (1798750400123 + 86400000).
Proof. reflexivity. Qed.

(** ** The date sent *)

Lemma digit_is_digit (n : Z) : is_digit (JsDate.digit n) = true.
Proof.
  unfold is_digit, JsDate.digit.
  assert (H : (0 <= n mod 10 < 10)%Z) by (apply Z.mod_pos_bound; lia).
  apply andb_true_iff. rewrite !N.leb_le. lia.
Qed.

Lemma pad_digits (k : nat) (n : Z) :
  Forall (fun c => is_digit c = true) (JsDate.pad k n).
Proof.
  revert n. induction k as [|k IH]; intros n; simpl; [constructor|].
  apply Forall_app. split; [apply IH|].
  constructor; [apply digit_is_digit | constructor].
Qed.

Lemma pad_length (k : nat) (n : Z) : List.length (JsDate.pad k n) = k.
Proof.
  revert n. induction k as [|k IH]; intros n; simpl; [reflexivity|].
  rewrite length_app, IH. simpl. lia.
Qed.

Lemma split_head_app (sep : N) (a b : Js.str) :
  Forall (fun c => N.eqb c sep = false) a ->
  Js.split_head sep (a ++ sep :: b) = a.
Proof.
  induction 1 as [|c a Hc _ IH]; simpl.
  - rewrite N.eqb_refl. reflexivity.
  - rewrite Hc, IH. reflexivity.
Qed.

Lemma digits_not_T (l : Js.str) :
  Forall (fun c => is_digit c = true) l ->
  Forall (fun c => N.eqb c 84 = false) l.
Proof.
  apply Forall_impl. intros c H. unfold is_digit in H.
  apply andb_true_iff in H. rewrite !N.leb_le in H.
  apply N.eqb_neq. lia.
Qed.

Lemma Forall_append (A : Type) (P : A -> Prop) (a b : list A) :
  Forall P a -> Forall P b -> Forall P (a ++ b).
Proof. intros. apply Forall_app. auto. Qed.

Lemma date_string_no_T (t : Z) :
  Forall (fun c => N.eqb c 84 = false) (JsDate.date_string t).
Proof.
  unfold JsDate.date_string.
  apply Forall_append; [| apply Forall_append; [| apply Forall_append;
    [| apply Forall_append ]]].
  - unfold JsDate.year_string.
    destruct ((0 <=? JsDate.YearFromTime t)%Z
              && (JsDate.YearFromTime t <=? 9999)%Z).
    + apply digits_not_T, pad_digits.
    + constructor; [destruct (0 <=? JsDate.YearFromTime t)%Z; reflexivity|].
      apply digits_not_T, pad_digits.
  - constructor; [reflexivity | constructor].
  - apply digits_not_T, pad_digits.
  - constructor; [reflexivity | constructor].
  - apply digits_not_T, pad_digits.
Qed.

(** [toISOString().split('T')[0]] is the date part of the ISO string. *)
Lemma dateToSend_date_string (t : Z) :
  AddTaskScreen.dateToSend (JsDate.TimeValue t)
  = Ret (JsDate.date_string t).
Proof.
  unfold AddTaskScreen.dateToSend, JsDate.toISOString, JsDate.iso_string.
  f_equal. apply split_head_app, date_string_no_T.
Qed.

(** For the years 0 to 9999 the date sent has the form [YYYY-MM-DD]. *)
Lemma date_string_four_digit_year (t : Z) :
  (0 <= JsDate.YearFromTime t <= 9999)%Z ->
  is_YYYY_MM_DD (JsDate.date_string t) = true.
Proof.
  intros [Hlo Hhi]. unfold JsDate.date_string, JsDate.year_string.
  apply Z.leb_le in Hlo, Hhi. rewrite Hlo, Hhi.
  cbn [JsDate.pad app andb is_YYYY_MM_DD N.eqb Pos.eqb].
  rewrite !digit_is_digit. reflexivity.
Qed.

(* ================================================================== *)
(** * The Create screen                                                *)
(* ================================================================== *)

Lemma reachable_steps (w : World) (es : list Event) :
  reachable w -> reachable (steps w es).
Proof.
  revert w. induction es as [|e es IH]; intros w H; simpl; [exact H|].
  apply IH. constructor. exact H.
Qed.

Lemma reachable_checked (w : World) :
  reachable w -> Forall creation_checked (requests w).
Proof. intros H. apply reachable_consistent in H. apply H. Qed.

(** C5.  A blank title never reaches the network.  [handleSave] with a
    title that is empty or white space only shows the alert and returns:
    it sends nothing and starts nothing.  So pressing Save on such a title
    leaves the request log as it is, and no creation request the
    application has ever sent carries a blank title. *)
Theorem blank_title_never_posted (w : World) :
  reachable w ->
  (forall t d dd,
     Js.blank t = true ->
     run (AddTaskScreen.handleSave t d dd) w
     = (Done tt,
        with_alerts (alerts w ++ [("Hata", "Başlık alanı zorunludur.")]) w)) /\
  (forall s,
     addScreen w = Some s ->
     Js.blank (AddTaskScreen.title s) = true ->
     requests (step w PressSave) = requests w /\
     inflight (step w PressSave) = inflight w) /\
  (forall r,
     In r (requests w) -> method r = POST ->
     exists data,
       body r = TaskBody data /\ Js.blank (NewTask.title data) = false).
Proof.
  intros Hw.
  assert (H1 : forall t d dd,
     Js.blank t = true ->
     run (AddTaskScreen.handleSave t d dd) w
     = (Done tt,
        with_alerts (alerts w ++ [("Hata", "Başlık alanı zorunludur.")]) w)).
  { intros t d dd Ht. unfold AddTaskScreen.handleSave.
    rewrite trim_truthy, Ht. reflexivity. }
  split; [exact H1 | split].
  - intros s Hs Ht. simpl. rewrite Hs.
    destruct (AddTaskScreen.isSaving s); [split; reflexivity|].
    unfold spawn. rewrite (H1 _ _ _ Ht). split; reflexivity.
  - intros r Hr Hm.
    pose proof (reachable_checked Hw) as Hc. rewrite Forall_forall in Hc.
    destruct (Hc r Hr Hm) as (data & date & Hb & Ht & _). eauto.
Qed.

Lemma blank_title_never_posted_witness :
  requests
    (steps initial
       [AddScreenMounted Sample.istanbul Sample.now;
        ChangeTitle [32%N; 9%N; 160%N]; PressSave]) = [].
Proof.
  exact (proj1 (proj1 (proj2 (@blank_title_never_posted
    (steps initial
       [AddScreenMounted Sample.istanbul Sample.now;
        ChangeTitle [32%N; 9%N; 160%N]])
    (reachable_steps _ reachable_initial))) _ eq_refl eq_refl)).
Defined.

(** C7 fails on the code for the years beyond 9999 (and before 0), where
    [toISOString] writes a sign and six digits.  For a due date in the
    year 10000 the creation request carries [+010000-01-01], which is not
    of the form [YYYY-MM-DD]. *)
Theorem dueDate_sent_for_year_10000 :
  let w := steps initial
             [AddScreenMounted Sample.istanbul Sample.now;
              ChangeTitle (Js.lit "Plan");
              ConfirmDate (JsDate.TimeValue year_10000);
              PressSave] in
  requests w
  = [{| method := POST; url := tasks_url;
        body := TaskBody (NewTask.make (Js.lit "Plan") []
                            (Some (Js.lit "+010000-01-01"))) |}] /\
  is_YYYY_MM_DD (Js.lit "+010000-01-01") = false.
Proof. split; reflexivity. Qed.

(** C10.  The Create screen never sends a null due date.  Its due date
    starts as tomorrow: the local time of the mount, one day later.  And
    every creation request the application has sent carries a due date
    string, though [NewTask.dueDate] has room for null. *)
Theorem dueDate_never_null (w : World) :
  reachable w ->
  (forall tz now,
     addScreen (step w (AddScreenMounted tz now))
     = Some {| AddTaskScreen.title := []; AddTaskScreen.description := [];
               AddTaskScreen.dueDate :=
                 JsDate.TimeClip
                   (JsDate.UTC tz (JsDate.LocalTime tz now + JsDate.msPerDay));
               AddTaskScreen.isSaving := false |}) /\
  (forall r,
     In r (requests w) -> method r = POST ->
     exists data date,
       body r = TaskBody data /\ NewTask.dueDate data = Some date).
Proof.
  intros Hw. split.
  - intros tz now. simpl. unfold AddTaskScreen.initial, AddTaskScreen.defaultDate.
    rewrite setDate_next_day. reflexivity.
  - intros r Hr Hm.
    pose proof (reachable_checked Hw) as Hc. rewrite Forall_forall in Hc.
    destruct (Hc r Hr Hm) as (data & date & Hb & _ & Hd). eauto.
Qed.

Lemma dueDate_never_null_witness :
  addScreen (steps initial [AddScreenMounted Sample.istanbul Sample.now])
  = Some {| AddTaskScreen.title := []; AddTaskScreen.description := [];
            AddTaskScreen.dueDate := JsDate.TimeValue 1793836800123%Z;
            AddTaskScreen.isSaving := false |}.
Proof.
  exact (proj1 (@dueDate_never_null initial reachable_initial)
           Sample.istanbul Sample.now).
Defined.

(* ================================================================== *)
(** * The store: mutations and the cache                               *)
(* ================================================================== *)

Lemma resolve_fetchTasks_ok (w : World) (n : nat) (s : Suspended unit)
    (data : list Task) :
  awaiting TaskProvider.fetchTasks s ->
  lookup n (inflight w) = Some s ->
  step w (Resolve n (TasksResponse (Ok data)))
  = with_store {| TaskProvider.tasks := data;
                  TaskProvider.isLoading := false |}
      (with_inflight (remove n (inflight w)) w).
Proof.
  intros Hs Hn. unfold awaiting in Hs. simpl in Hs. injection Hs as <-.
  simpl. unfold resolve. rewrite Hn. reflexivity.
Qed.

Lemma lookup_fresh (A : Type) (n : nat) (l l' : list (nat * A)) :
  (forall m a, In (m, a) l -> m < n) ->
  lookup n (l ++ l') = lookup n l'.
Proof.
  induction l as [|[k b] l IH]; simpl; intros H; [reflexivity|].
  destruct (Nat.eqb_spec n k) as [->|_].
  - specialize (H k b (or_introl eq_refl)). lia.
  - apply IH. intros m a Hin. apply (H m a). auto.
Qed.

Lemma remove_fresh (A : Type) (n : nat) (l l' : list (nat * A)) :
  (forall m a, In (m, a) l -> m < n) ->
  remove n (l ++ l') = l ++ remove n l'.
Proof.
  induction l as [|[k b] l IH]; simpl; intros H; [reflexivity|].
  destruct (Nat.eqb_spec n k) as [->|_].
  - specialize (H k b (or_introl eq_refl)). lia.
  - f_equal. apply IH. intros m a Hin. apply (H m a). auto.
Qed.

(** C2.  Each of [createTask], [updateTaskStatus] and [deleteTask] sends
    its request and touches nothing else.  When the request fails, the
    rejection reaches the caller and the world is as it was, the cache
    included.  When it succeeds, the operation calls [fetchTasks] and
    returns: the cache is still what it was (no patch), the request for the
    whole collection is in flight, and its successful answer replaces the
    cache. *)
Theorem mutation_then_full_refetch (op : Prog unit) (m : Mutation) :
  mutation op m ->
  exists k,
    (forall w,
       run op w
       = (Waiting (List.length (requests w)) (OnSend m k),
          send (request_of m) w)) /\
    (forall w e, run (k (Rejected e)) w = (Failed e, w)) /\
    (forall w,
       run (k (Ok tt)) w = (Done tt, spawn TaskProvider.fetchTasks w) /\
       cache (spawn TaskProvider.fetchTasks w) = cache w /\
       exists s,
         awaiting TaskProvider.fetchTasks s /\
         inflight (spawn TaskProvider.fetchTasks w)
         = inflight w ++ [(List.length (requests w), s)] /\
         forall w' n data,
           lookup n (inflight w') = Some s ->
           cache (step w' (Resolve n (TasksResponse (Ok data)))) = data).
Proof.
  intros H. destruct H as [d|i st|i]; eexists; (split; [| split]).
  all: try (intros w; reflexivity).
  all: try (intros w e; reflexivity).
  all: intros w; split; [reflexivity | split; [reflexivity |]];
    eexists; split; [reflexivity | split; [reflexivity |]];
    intros w' n answer Hn;
    rewrite (@resolve_fetchTasks_ok w' n _ answer eq_refl Hn); reflexivity.
Qed.

Lemma mutation_then_full_refetch_witness :
  exists k,
    run (TaskProvider.updateTaskStatus (Js.lit "1") completed) initial
    = (Waiting 0 (OnSend (Patch (Js.lit "1") completed) k),
       send (request_of (Patch (Js.lit "1") completed)) initial) /\
    run (k (Rejected NetworkError)) initial = (Failed NetworkError, initial).
Proof.
  destruct (mutation_then_full_refetch
              (mutation_updateTaskStatus (Js.lit "1") completed))
    as (k & H1 & H2 & _).
  exists k. split; [apply (H1 initial) | apply (H2 initial)].
Defined.

(** A status change from end to end: the cache holds task 1, pending;
    [updateTaskStatus("1", "completed")] succeeds, the cache is still the
    old one, and the server then returns the task completed. *)
Example setStatus_scenario :
  let w := steps initial
             [ProviderMounted;
              Resolve 0 (TasksResponse (Ok [Sample.task1]));
              DetailScreenMounted (Js.lit "1");
              Resolve 1 (TaskResponse (Ok Sample.task1));
              PressToggle] in
  cache w = [Sample.task1] /\
  cache (step w (Resolve 2 (EmptyResponse (Ok tt)))) = [Sample.task1] /\
  cache (steps w [Resolve 2 (EmptyResponse (Ok tt));
                  Resolve 3 (TasksResponse (Ok [Sample.task1_done]))])
  = [Sample.task1_done].
Proof. repeat split. Qed.

Lemma cache_after_quiet (c : list Task) (l : list Action) :
  Forall (fun a => forall data, a <> setTasks data) l ->
  cache_after c l = c.
Proof.
  unfold cache_after. induction 1 as [|a l Ha _ IH]; simpl; [reflexivity|].
  destruct a; try exact IH. exfalso. exact (Ha _ eq_refl).
Qed.

Lemma handleSave_quiet (t d : Js.str) (dd : JsDate.Date) :
  Forall (fun a => forall data, a <> setTasks data)
    (actions (AddTaskScreen.handleSave t d dd)) /\
  navigation_calls (actions (AddTaskScreen.handleSave t d dd)) = [].
Proof.
  unfold AddTaskScreen.handleSave, AddTaskScreen.dateToSend.
  destruct (negb (Js.truthy (Js.trim t))); simpl; [split; [quiet | reflexivity]|].
  destruct (JsDate.toISOString dd); simpl; (split; [quiet | reflexivity]).
Qed.

Lemma handleToggleStatus_quiet (i : Js.str) (lt : option Task) :
  Forall (fun a => forall data, a <> setTasks data)
    (actions (TaskDetailScreen.handleToggleStatus i lt)).
Proof. destruct lt; simpl; quiet. Qed.

Lemma two_inflight (A : Type) (n : nat) (a b : A) :
  lookup n [(n, a); (S n, b)] = Some a /\
  lookup (S n) [(n, a); (S n, b)] = Some b /\
  remove n [(n, a); (S n, b)] = [(S n, b)] /\
  remove (S n) [(n, a); (S n, b)] = [(n, a)].
Proof.
  assert (Hne : Nat.eqb n (S n) = false) by (apply Nat.eqb_neq; lia).
  assert (Hne' : Nat.eqb (S n) n = false) by (apply Nat.eqb_neq; lia).
  unfold lookup, remove.
  rewrite !Nat.eqb_refl, Hne, Hne'. repeat split.
Qed.

Lemma inflight_refresh (w : World) :
  inflight (step w PullToRefresh)
  = inflight w ++ [(List.length (requests w), resync)].
Proof. reflexivity. Qed.

Lemma requests_refresh (w : World) :
  requests (step w PullToRefresh)
  = requests w ++ [{| method := GET; url := tasks_url; body := NoBody |}].
Proof. reflexivity. Qed.

Lemma resolve_resync (w : World) (n : nat) (data : list Task) :
  lookup n (inflight w) = Some resync ->
  cache (step w (Resolve n (TasksResponse (Ok data)))) = data /\
  inflight (step w (Resolve n (TasksResponse (Ok data))))
  = remove n (inflight w).
Proof.
  intros H. rewrite (@resolve_fetchTasks_ok w n resync data eq_refl H).
  split; reflexivity.
Qed.

(** C8.  The cached collection has one writer.  A step of the application
    that changes the cache is the arrival of a successful answer to a
    request a call of [fetchTasks] is awaiting, and the cache is then that
    answer: no mutation, no lookup and no screen writes it.  With two
    refreshes in flight, the cache ends as the answer that arrives last,
    in whichever order they arrive. *)
Theorem cache_written_by_resync_only (w : World) :
  reachable w ->
  (forall e,
     cache (step w e) <> cache w ->
     exists n s data,
       e = Resolve n (TasksResponse (Ok data)) /\
       lookup n (inflight w) = Some s /\
       awaiting TaskProvider.fetchTasks s /\
       cache (step w e) = data) /\
  (forall first second,
     let n := List.length (requests w) in
     let w2 := steps w [PullToRefresh; PullToRefresh] in
     cache (steps w2 [Resolve n (TasksResponse (Ok first));
                      Resolve (S n) (TasksResponse (Ok second))]) = second /\
     cache (steps w2 [Resolve (S n) (TasksResponse (Ok second));
                      Resolve n (TasksResponse (Ok first))]) = first).
Proof.
  intros Hw. apply reachable_consistent in Hw. destruct Hw as [Hin _].
  split.
  - intros e H.
    destruct e; simpl in H;
      try (exfalso; apply H; reflexivity).
    + destruct (addScreen w) as [s|]; [| exfalso; apply H; reflexivity].
      destruct (AddTaskScreen.isSaving s); [exfalso; apply H; reflexivity|].
      exfalso. apply H. rewrite cache_spawn.
      apply cache_after_quiet, handleSave_quiet.
    + destruct (detailScreen w) as [s|]; [| exfalso; apply H; reflexivity].
      destruct (TaskDetailScreen.loading s); [exfalso; apply H; reflexivity|].
      destruct (TaskDetailScreen.localTask s) eqn:E;
        [| exfalso; apply H; reflexivity].
      exfalso. apply H. rewrite cache_spawn.
      apply cache_after_quiet. rewrite <- E. apply handleToggleStatus_quiet.
    + destruct (detailScreen w) as [s|]; [| exfalso; apply H; reflexivity].
      destruct (TaskDetailScreen.loading s); [exfalso; apply H; reflexivity|].
      destruct (TaskDetailScreen.localTask s);
        exfalso; apply H; reflexivity.
    + destruct (detailScreen w) as [s|]; exfalso; apply H; reflexivity.
    + destruct (detailScreen w) as [s|]; [| exfalso; apply H; reflexivity].
      destruct (TaskDetailScreen.loading s); [exfalso; apply H; reflexivity|].
      destruct (TaskDetailScreen.localTask s);
        exfalso; apply H; reflexivity.
    + unfold resolve in *.
      destruct (lookup n (inflight w)) as [s|] eqn:E;
        [| exfalso; apply H; reflexivity].
      pose proof (lookup_in _ _ E) as Hs. apply Hin in Hs.
      destruct Hs as [Hs _].
      issued_cases Hs; destruct r as [[x|e]|[x|e]|[x|e]];
        try (exfalso; apply H; reflexivity).
      exists n. eexists. exists x.
      split; [reflexivity|]. split; [exact E|]. split; [reflexivity|].
      simpl. unfold resolve. rewrite E. reflexivity.
  - intros first second n w2.
    assert (Hfresh : forall m a, In (m, a) (inflight w) -> m < n).
    { intros m a Hm. apply Hin in Hm. apply Hm. }
    assert (Hfresh' : forall m a, In (m, a) (inflight w) -> m < S n).
    { intros m a Hm. apply Hfresh in Hm. lia. }
    assert (H2 : inflight w2 = inflight w ++ [(n, resync); (S n, resync)]).
    { subst w2. unfold steps. rewrite !inflight_refresh, requests_refresh.
      rewrite length_app, Nat.add_comm, <- app_assoc. reflexivity. }
    destruct (two_inflight n resync resync) as (T1 & T2 & T3 & T4).
    assert (L1 : lookup n (inflight w2) = Some resync).
    { rewrite H2, (lookup_fresh _ _ Hfresh). exact T1. }
    assert (L2 : lookup (S n) (inflight w2) = Some resync).
    { rewrite H2, (lookup_fresh _ _ Hfresh'). exact T2. }
    split; unfold steps; apply resolve_resync.
    + rewrite (proj2 (@resolve_resync w2 n first L1)), H2.
      rewrite (remove_fresh _ _ Hfresh), T3, (lookup_fresh _ _ Hfresh').
      unfold lookup. rewrite Nat.eqb_refl. reflexivity.
    + rewrite (proj2 (@resolve_resync w2 (S n) second L2)), H2.
      rewrite (remove_fresh _ _ Hfresh'), T4, (lookup_fresh _ _ Hfresh).
      unfold lookup. rewrite Nat.eqb_refl. reflexivity.
Qed.

Lemma cache_written_by_resync_only_witness :
  cache (steps (steps initial [PullToRefresh; PullToRefresh])
           [Resolve 1 (TasksResponse (Ok [Sample.task2]));
            Resolve 0 (TasksResponse (Ok [Sample.task1]))])
  = [Sample.task1].
Proof.
  exact (proj2 (proj2 (@cache_written_by_resync_only initial reachable_initial)
                  [Sample.task1] [Sample.task2])).
Defined.

(* ================================================================== *)
(** * The Detail screen                                                *)
(* ================================================================== *)

(** C6.  When the fetch of the Detail screen fails, the screen shows the
    alert and calls [navigation.goBack()].  No other failure navigates: a
    failed answer that changes the navigation log is the answer to a
    [fetchDetail], and pressing Save never navigates by itself, whatever
    goes wrong before the request (blank title, invalid date). *)
Theorem detail_fetch_failure_goes_back (w : World) :
  reachable w ->
  (forall n i s e,
     awaiting (TaskDetailScreen.fetchDetail i) s ->
     lookup n (inflight w) = Some s ->
     let w' := step w (Resolve n (TaskResponse (Rejected e))) in
     alerts w' = alerts w ++ [("Hata", "Görev detayları yüklenemedi.")] /\
     navigations w' = navigations w ++ [goBack]) /\
  (forall n r,
     failure r ->
     navigations (step w (Resolve n r)) <> navigations w ->
     exists i s,
       awaiting (TaskDetailScreen.fetchDetail i) s /\
       lookup n (inflight w) = Some s) /\
  navigations (step w PressSave) = navigations w.
Proof.
  intros Hw. apply reachable_consistent in Hw. destruct Hw as [Hin _].
  split; [| split].
  - intros n i s e Hs Hn. unfold awaiting in Hs. simpl in Hs.
    injection Hs as <-. simpl. unfold resolve. rewrite Hn.
    split; reflexivity.
  - intros n r Hr H. simpl in H. unfold resolve in H.
    destruct (lookup n (inflight w)) as [s|] eqn:E;
      [| exfalso; apply H; reflexivity].
    pose proof (lookup_in _ _ E) as Hs. apply Hin in Hs.
    destruct Hs as [Hs _].
    issued_cases Hs; destruct r as [[x|e]|[x|e]|[x|e]];
      try contradiction;
      try (exfalso; apply H; reflexivity).
    eexists. eexists. split; [| reflexivity]. reflexivity.
  - simpl. destruct (addScreen w) as [s|]; [| reflexivity].
    destruct (AddTaskScreen.isSaving s); [reflexivity|].
    rewrite navigations_spawn, (proj2 (handleSave_quiet _ _ _)).
    apply app_nil_r.
Qed.

Lemma detail_fetch_failure_goes_back_witness :
  navigations
    (steps initial
       [DetailScreenMounted (Js.lit "7");
        Resolve 0 (TaskResponse (Rejected NetworkError))])
  = [goBack].
Proof.
  exact (proj2 (proj1 (@detail_fetch_failure_goes_back
    (steps initial [DetailScreenMounted (Js.lit "7")])
    (reachable_steps _ reachable_initial))
    0 (Js.lit "7") _ NetworkError eq_refl eq_refl)).
Defined.

(** The other failures, each with its alert and no navigation. *)
Example save_failure_stays :
  let w := steps initial
             [AddScreenMounted Sample.istanbul Sample.now;
              ChangeTitle (Js.lit "Plan"); PressSave;
              Resolve 0 (EmptyResponse (Rejected NetworkError))] in
  navigations w = [] /\
  alerts w = [("Hata", "Görev kaydedilirken bir sorun oluştu.")] /\
  cache w = [].
Proof. repeat split. Qed.

Example delete_failure_stays :
  let w := steps initial
             [DetailScreenMounted (Js.lit "1");
              Resolve 0 (TaskResponse (Ok Sample.task1));
              PressDelete; ConfirmDelete;
              Resolve 1 (EmptyResponse (Rejected NetworkError))] in
  navigations w = [] /\
  alerts w = [("Görevi Sil", "Bu görevi silmek istediğinizden emin misiniz?");
              ("Hata", "Silme işlemi başarısız oldu.")].
Proof. repeat split. Qed.

(* ================================================================== *)
(** * The Create screen: what Save does                                *)
(* ================================================================== *)

(** Pressing Save on a valid form: the screen is saving and the creation
    request is in flight. *)
Lemma press_save_valid (w : World) (s : AddTaskScreen.State) (t : Z) :
  addScreen w = Some s ->
  AddTaskScreen.isSaving s = false ->
  Js.blank (AddTaskScreen.title s) = false ->
  AddTaskScreen.dueDate s = JsDate.TimeValue t ->
  exists k,
    step w PressSave
    = let data := NewTask.make (AddTaskScreen.title s)
                    (AddTaskScreen.description s)
                    (Some (JsDate.date_string t)) in
      with_inflight
        (inflight w ++ [(List.length (requests w), OnSend (Post data) k)])
        (send (request_of (Post data))
           (with_addScreen
              (Some {| AddTaskScreen.title := AddTaskScreen.title s;
                       AddTaskScreen.description := AddTaskScreen.description s;
                       AddTaskScreen.dueDate := JsDate.TimeValue t;
                       AddTaskScreen.isSaving := true |}) w)).
Proof.
  intros Hs Hsav Ht Hd. simpl. rewrite Hs, Hsav, Hd.
  unfold AddTaskScreen.handleSave.
  rewrite trim_truthy, Ht, dateToSend_date_string.
  unfold spawn. simpl. rewrite Hs. simpl. rewrite Hd.
  eexists. reflexivity.
Qed.

(** The request [handleSave] sends: the title as typed, surrounding white
    space included (only the validation trims it), the description, and
    the UTC date of the due date.  The screen is then saving; nothing else
    has happened yet. *)
Theorem save_sends_title_as_typed
    (w : World) (s : AddTaskScreen.State) (t : Z) :
  addScreen w = Some s ->
  AddTaskScreen.isSaving s = false ->
  Js.blank (AddTaskScreen.title s) = false ->
  AddTaskScreen.dueDate s = JsDate.TimeValue t ->
  let w' := step w PressSave in
  requests w'
  = requests w ++
    [{| method := POST; url := tasks_url;
        body := TaskBody (NewTask.make (AddTaskScreen.title s)
                            (AddTaskScreen.description s)
                            (Some (JsDate.date_string t))) |}] /\
  option_map AddTaskScreen.isSaving (addScreen w') = Some true /\
  cache w' = cache w /\
  alerts w' = alerts w /\
  navigations w' = navigations w.
Proof.
  intros Hs Hsav Ht Hd.
  destruct (press_save_valid w Hs Hsav Ht Hd) as [k ->].
  repeat split.
Qed.

Lemma save_sends_title_as_typed_witness :
  requests
    (steps initial
       [AddScreenMounted Sample.istanbul Sample.now;
        ChangeTitle (Js.lit " Plan "); ChangeDescription (Js.lit "x");
        PressSave])
  = [{| method := POST; url := tasks_url;
        body := TaskBody (NewTask.make (Js.lit " Plan ") (Js.lit "x")
                            (Some (Js.lit "2026-11-05"))) |}].
Proof.
  exact (proj1 (@save_sends_title_as_typed
    (steps initial
       [AddScreenMounted Sample.istanbul Sample.now;
        ChangeTitle (Js.lit " Plan "); ChangeDescription (Js.lit "x")])
    _ 1793836800123%Z eq_refl eq_refl eq_refl eq_refl)).
Defined.

(** With an invalid due date [toISOString] throws inside the [try]: the
    handler shows the save alert, sends nothing, and the screen is not
    left saving. *)
Theorem save_with_invalid_date_sends_nothing
    (w : World) (s : AddTaskScreen.State) :
  addScreen w = Some s ->
  AddTaskScreen.isSaving s = false ->
  Js.blank (AddTaskScreen.title s) = false ->
  AddTaskScreen.dueDate s = JsDate.Invalid ->
  let w' := step w PressSave in
  requests w' = requests w /\
  inflight w' = inflight w /\
  alerts w' = alerts w ++ [("Hata", "Görev kaydedilirken bir sorun oluştu.")] /\
  navigations w' = navigations w /\
  option_map AddTaskScreen.isSaving (addScreen w') = Some false.
Proof.
  intros Hs Hsav Ht Hd. simpl. rewrite Hs, Hsav, Hd.
  unfold AddTaskScreen.handleSave.
  rewrite trim_truthy, Ht.
  simpl. rewrite Hs. repeat split.
Qed.

Lemma save_with_invalid_date_sends_nothing_witness :
  requests
    (steps initial
       [AddScreenMounted Sample.istanbul Sample.now;
        ChangeTitle (Js.lit "Plan"); ConfirmDate JsDate.Invalid;
        PressSave])
  = [].
Proof.
  exact (proj1 (@save_with_invalid_date_sends_nothing
    (steps initial
       [AddScreenMounted Sample.istanbul Sample.now;
        ChangeTitle (Js.lit "Plan"); ConfirmDate JsDate.Invalid])
    _ eq_refl eq_refl eq_refl eq_refl)).
Defined.

(** While the creation request is in flight the Save button is disabled:
    a second press does nothing, so one request is sent. *)
Theorem second_save_press_is_ignored
    (w : World) (s : AddTaskScreen.State) (t : Z) :
  addScreen w = Some s ->
  AddTaskScreen.isSaving s = false ->
  Js.blank (AddTaskScreen.title s) = false ->
  AddTaskScreen.dueDate s = JsDate.TimeValue t ->
  steps w [PressSave; PressSave] = step w PressSave.
Proof.
  intros Hs Hsav Ht Hd. unfold steps.
  destruct (press_save_valid w Hs Hsav Ht Hd) as [k ->].
  reflexivity.
Qed.

Lemma second_save_press_is_ignored_witness :
  List.length
    (requests
       (steps initial
          [AddScreenMounted Sample.istanbul Sample.now;
           ChangeTitle (Js.lit "Plan"); PressSave; PressSave])) = 1.
Proof.
  pose proof (@second_save_press_is_ignored
    (steps initial
       [AddScreenMounted Sample.istanbul Sample.now;
        ChangeTitle (Js.lit "Plan")])
    _ 1793836800123%Z eq_refl eq_refl eq_refl eq_refl) as H.
  change (List.length
            (requests
               (steps
                  (steps initial
                     [AddScreenMounted Sample.istanbul Sample.now;
                      ChangeTitle (Js.lit "Plan")])
                  [PressSave; PressSave])) = 1).
  rewrite H. reflexivity.
Defined.



(* ================================================================== *)
(** * The Detail screen: toggle and delete                             *)
(* ================================================================== *)





(** Deleting takes two presses.  The Delete button only opens the
    confirmation dialog; the request [DELETE /api/tasks/{id}] is sent by
    the dialog's destructive button. *)
Theorem delete_asks_first
    (w : World) (s : TaskDetailScreen.State) (task : Task) :
  detailScreen w = Some s ->
  TaskDetailScreen.loading s = false ->
  TaskDetailScreen.localTask s = Some task ->
  step w PressDelete
  = with_alerts
      (alerts w ++
       [("Görevi Sil", "Bu görevi silmek istediğinizden emin misiniz?")]) w /\
  requests (steps w [PressDelete; ConfirmDelete])
  = requests w ++
    [{| method := DELETE; url := task_url (TaskDetailScreen.taskId s);
        body := NoBody |}].
Proof.
  intros Hs Hl Ht. unfold steps. simpl. rewrite Hs, Hl, Ht. simpl.
  rewrite Hs. split; reflexivity.
Qed.

Lemma delete_asks_first_witness :
  requests
    (steps initial
       [DetailScreenMounted (Js.lit "1");
        Resolve 0 (TaskResponse (Ok Sample.task1)); PressDelete])
  = [{| method := GET; url := task_url (Js.lit "1"); body := NoBody |}].
Proof.
  exact (f_equal requests (proj1 (@delete_asks_first
    (steps initial
       [DetailScreenMounted (Js.lit "1");
        Resolve 0 (TaskResponse (Ok Sample.task1))])
    _ Sample.task1 eq_refl eq_refl eq_refl))).
Defined.



(* ================================================================== *)
(** * Answers, in any reachable world                                  *)
(* ================================================================== *)

(** Nothing is retried and every failure is shown once.  Whatever request
    a failed answer belongs to, the application shows one alert, sends no
    request, leaves the cache alone and forgets the request. *)
Theorem failure_reported_once_not_retried
    (w : World) (n : nat) (s : Suspended unit) (r : Response) :
  reachable w ->
  lookup n (inflight w) = Some s ->
  answers s r ->
  failure r ->
  let w' := step w (Resolve n r) in
  (exists a, alerts w' = alerts w ++ [a]) /\
  requests w' = requests w /\
  cache w' = cache w /\
  inflight w' = remove n (inflight w).
Proof.
  intros Hw Hn Ha Hf. apply reachable_consistent in Hw.
  pose proof (lookup_in _ _ Hn) as Hs. apply (proj1 Hw) in Hs.
  destruct Hs as [Hs _].
  issued_cases Hs; destruct r as [[x|e]|[x|e]|[x|e]];
    try contradiction;
    simpl; unfold resolve; rewrite Hn; simpl;
    (split; [eexists; reflexivity | repeat split]).
Qed.

Lemma failure_reported_once_not_retried_witness :
  let w := steps initial [ProviderMounted] in
  requests (step w (Resolve 0 (TasksResponse (Rejected NetworkError))))
  = requests w.
Proof.
  exact (proj1 (proj2 (@failure_reported_once_not_retried
    (steps initial [ProviderMounted]) 0 _
    (TasksResponse (Rejected NetworkError))
    (reachable_steps _ reachable_initial) eq_refl I I))).
Defined.



(** The Detail screen does not read the cache.  Mounted for a task id it
    always requests [GET /api/tasks/{id}], and it shows the answer as it
    is; the cache is not consulted and not updated. *)
Theorem detail_shows_server_answer (w : World) (i : Js.str) (data : Task) :
  reachable w ->
  let n := List.length (requests w) in
  let w1 := step w (DetailScreenMounted i) in
  let w2 := step w1 (Resolve n (TaskResponse (Ok data))) in
  requests w1
  = requests w ++ [{| method := GET; url := task_url i; body := NoBody |}] /\
  detailScreen w1
  = Some {| TaskDetailScreen.taskId := i;
            TaskDetailScreen.localTask := None;
            TaskDetailScreen.loading := true |} /\
  detailScreen w2
  = Some {| TaskDetailScreen.taskId := i;
            TaskDetailScreen.localTask := Some data;
            TaskDetailScreen.loading := false |} /\
  requests w2 = requests w1 /\
  cache w2 = cache w /\
  alerts w2 = alerts w /\
  navigations w2 = navigations w.
Proof.
  intros Hw n w1 w2. apply reachable_consistent in Hw.
  assert (Hfresh : forall m a, In (m, a) (inflight w) -> m < n).
  { intros m a Hm. apply (proj1 Hw) in Hm. apply Hm. }
  split; [reflexivity | split; [reflexivity|]].
  subst w2 w1. simpl. unfold resolve. simpl.
  fold n. rewrite (lookup_fresh _ _ Hfresh).
  unfold lookup. rewrite Nat.eqb_refl. simpl. repeat split.
Qed.

Lemma detail_shows_server_answer_witness :
  let w1 := step initial (DetailScreenMounted (Js.lit "2")) in
  requests w1
  = requests initial ++
    [{| method := GET; url := task_url (Js.lit "2"); body := NoBody |}].
Proof.
  exact (proj1 (@detail_shows_server_answer initial (Js.lit "2")
                  Sample.task2 reachable_initial)).
Defined.

(* ================================================================== *)
(** * Request numbers                                                  *)
(* ================================================================== *)













(* ================================================================== *)
(** * Busy flags                                                       *)
(* ================================================================== *)

Lemma in_flight_more (K : Kind) (w w' : World) (l : list (nat * Suspended unit)) :
  inflight w' = inflight w ++ l -> in_flight K w -> in_flight K w'.
Proof.
  intros E (n & s & Hin & Hk). exists n, s. rewrite E.
  split; [apply in_or_app; auto | exact Hk].
Qed.






Lemma resolve_resync_any (w : World) (n : nat) (r : Result (list Task)) :
  lookup n (inflight w) = Some resync ->
  isLoading (step w (Resolve n (TasksResponse r))) = false /\
  inflight (step w (Resolve n (TasksResponse r))) = remove n (inflight w).
Proof.
  intros H. simpl. unfold resolve. rewrite H.
  destruct r; split; reflexivity.
Qed.

(** The loading flag does not count.  With two refetches in flight, the
    first answer, good or bad, clears the flag although the second
    request is still awaited. *)
Theorem loading_cleared_by_first_answer
    (w : World) (r : Result (list Task)) :
  reachable w ->
  let n := List.length (requests w) in
  let w' := steps w [PullToRefresh; PullToRefresh;
                     Resolve n (TasksResponse r)] in
  isLoading w' = false /\
  In (S n, resync) (inflight w').
Proof.
  intros Hw n w'. apply reachable_consistent in Hw. destruct Hw as [Hin _].
  assert (Hfresh : forall m a, In (m, a) (inflight w) -> m < n).
  { intros m a Hm. apply Hin in Hm. apply Hm. }
  set (w2 := steps w [PullToRefresh; PullToRefresh]).
  assert (H2 : inflight w2 = inflight w ++ [(n, resync); (S n, resync)]).
  { subst w2. unfold steps. rewrite !inflight_refresh, requests_refresh.
    rewrite length_app, Nat.add_comm, <- app_assoc. reflexivity. }
  destruct (two_inflight n resync resync) as (T1 & _ & T3 & _).
  assert (L1 : lookup n (inflight w2) = Some resync).
  { rewrite H2, (lookup_fresh _ _ Hfresh). exact T1. }
  destruct (@resolve_resync_any w2 n r L1) as [Hl Hi].
  change w' with (step w2 (Resolve n (TasksResponse r))).
  split; [exact Hl|].
  rewrite Hi, H2, (remove_fresh _ _ Hfresh), T3.
  apply in_or_app. right. left. reflexivity.
Qed.

Lemma loading_cleared_by_first_answer_witness :
  let w' := steps initial
              [PullToRefresh; PullToRefresh;
               Resolve (List.length (requests initial))
                 (TasksResponse (Rejected NetworkError))] in
  isLoading w' = false /\
  In (S (List.length (requests initial)), resync) (inflight w').
Proof.
  exact (@loading_cleared_by_first_answer initial (Rejected NetworkError)
           reachable_initial).
Defined.

(* ================================================================== *)
(** * The date sent                                                    *)
(* ================================================================== *)

Section DateSent.
Import JsDate.
Local Open Scope Z_scope.

Lemma is_YYYY_MM_DD_length (s : Js.str) :
  is_YYYY_MM_DD s = true -> List.length s = 10%nat.
Proof.
  unfold is_YYYY_MM_DD.
  do 10 (destruct s as [|? s]; [discriminate|]).
  destruct s; [reflexivity | discriminate].
Qed.

Lemma date_string_length (t : Z) :
  List.length (date_string t)
  = (List.length (year_string (YearFromTime t)) + 6)%nat.
Proof.
  unfold date_string. rewrite !length_app, !pad_length. simpl. lia.
Qed.

(** The date [handleSave] sends is the UTC date of the due date.  It has
    the form [YYYY-MM-DD] exactly for the years 0 to 9999; the month and
    the day written are always a month and a day of the calendar. *)
Theorem date_sent_form (t : Z) :
  AddTaskScreen.dateToSend (TimeValue t) = Ret (date_string t) /\
  (is_YYYY_MM_DD (date_string t) = true <-> 0 <= YearFromTime t <= 9999) /\
  1 <= MonthFromTime t + 1 <= 12 /\
  1 <= DateFromTime t <= 31.
Proof.
  split; [apply dateToSend_date_string | split; [split | split]].
  - intros H. apply is_YYYY_MM_DD_length in H.
    rewrite date_string_length in H. unfold year_string in H.
    destruct (Z.leb_spec 0 (YearFromTime t));
      destruct (Z.leb_spec (YearFromTime t) 9999); simpl in H;
      try lia; rewrite pad_length in H; lia.
  - apply date_string_four_digit_year.
  - pose proof (MonthFromDay_range (DayWithinYear t) (InLeapYear t)) as H.
    unfold MonthFromTime. lia.
  - apply DateFromTime_range.
Qed.

Lemma date_string_Day (a b : Z) :
  Day a = Day b -> date_string a = date_string b.
Proof.
  intros H.
  unfold date_string, DateFromTime, MonthFromTime, InLeapYear,
    DayWithinYear, YearFromTime.
  rewrite H. reflexivity.
Qed.

(** Which date the default due date is sent as.  In a zone [off]
    milliseconds ahead of UTC the screen sets the due date to the local
    tomorrow, but sends its UTC date: opened less than [off] after local
    midnight it sends the local date of today.  In a zone behind UTC,
    opened less than [-off] before local midnight it sends the date after
    tomorrow.  Otherwise it sends tomorrow. *)
Theorem default_due_date_sent (off now : Z) :
  - msPerDay < off < msPerDay ->
  Z.abs (now + msPerDay) <= 8640000000000000 ->
  let tz : TimeZone := fun _ _ => off in
  let local := LocalTime tz now in
  AddTaskScreen.dateToSend (AddTaskScreen.defaultDate tz now)
  = Ret (date_string
           (local +
            if TimeWithinDay local <? off then 0
            else if msPerDay + off <=? TimeWithinDay local then 2 * msPerDay
            else msPerDay)).
Proof.
  intros Hoff Hnow tz local.
  assert (Hl : local = now + off) by reflexivity.
  unfold AddTaskScreen.defaultDate. rewrite setDate_next_day.
  fold local.
  assert (Hu : UTC tz (local + msPerDay) = now + msPerDay).
  { unfold UTC, tz. lia. }
  rewrite Hu. unfold TimeClip. apply Z.leb_le in Hnow. rewrite Hnow.
  rewrite dateToSend_date_string. f_equal. apply date_string_Day.
  rewrite Hl. unfold Day, TimeWithinDay, msPerDay in *.
  destruct (Z.ltb_spec ((now + off) mod 86400000) off);
    [| destruct (Z.leb_spec (86400000 + off) ((now + off) mod 86400000))];
    Z.div_mod_to_equations; lia.
Qed.

End DateSent.

Lemma default_due_date_sent_witness :
  AddTaskScreen.dateToSend
    (AddTaskScreen.defaultDate (fun _ _ => 10800000%Z) 1793745000123%Z)
  = Ret (JsDate.date_string (1793745000123 + 10800000 + 0)%Z).
Proof.
  apply (@default_due_date_sent 10800000%Z 1793745000123%Z);
    unfold JsDate.msPerDay; lia.
Defined.

(** Opened at 01:30 on 4 November in Istanbul, the screen sends a default
    due date of 4 November. *)
Example default_due_date_sent_today :
  AddTaskScreen.dateToSend
    (AddTaskScreen.defaultDate Sample.istanbul 1793745000123%Z)
  = Ret (Js.lit "2026-11-04") /\
  JsDate.date_string (JsDate.LocalTime Sample.istanbul 1793745000123%Z)
  = Js.lit "2026-11-04".
Proof. split; reflexivity. Qed.

(* ================================================================== *)
(** * Looking up what was fetched                                      *)
(* ================================================================== *)





(* ================================================================== *)
(** * What the screens render                                          *)
(* ================================================================== *)

(** The press events of the transition system are the handlers of the
    buttons the screens render: a button that is not rendered (the Detail
    screen before the task is loaded) or is disabled (Save while saving)
    cannot start anything. *)
Lemma press_events_follow_render (w : World) :
  step w PressSave
  = match addScreen w with
    | Some s => press (AddTaskScreen.saveButton s) w
    | None => w
    end /\
  (forall s, detailScreen w = Some s ->
     match TaskDetailScreen.render s with
     | TaskDetailScreen.Spinner =>
         step w PressEdit = w /\ step w PressToggle = w /\
         step w PressDelete = w
     | TaskDetailScreen.Details _ edit toggle delete =>
         step w PressEdit = press edit w /\
         step w PressToggle = press toggle w /\
         step w PressDelete = press delete w
     end) /\
  step w PullToRefresh
  = spawn (HomeScreen.onRefresh
             (HomeScreen.render (TaskProvider.value (store w)))) w /\
  step w PressAdd
  = spawn (HomeScreen.fab
             (HomeScreen.render (TaskProvider.value (store w)))) w.
Proof.
  split; [| split; [| split; reflexivity]].
  - simpl. destruct (addScreen w) as [s|]; [| reflexivity].
    unfold press. simpl. reflexivity.
  - intros s Hs. unfold TaskDetailScreen.render. simpl. rewrite Hs.
    destruct (TaskDetailScreen.loading s);
      destruct (TaskDetailScreen.localTask s); repeat split.
Qed.

(** The list and the detail view agree on a task.  The badge of the card
    and the badge of the status row have the same colour and the same
    text, for either status, and it is never the fallback colour; the
    due-date line is on the card exactly when it is in the detail view. *)
Theorem card_and_detail_agree
    (task : Task) (onPressAction : Js.str -> Prog unit) :
  let card := HomeScreen.TaskCard task onPressAction in
  exists rows due,
    TaskDetailScreen.DetailView (Some task) TaskDetailScreen.detailFields
    = TaskDetailScreen.Rows rows due /\
    In {| TaskDetailScreen.rowKey := Js.lit "status";
          TaskDetailScreen.rowLabel := "Durum";
          TaskDetailScreen.rowValue :=
            TaskDetailScreen.Badge (HomeScreen.statusColor card)
              (HomeScreen.statusText card) |} rows /\
    HomeScreen.statusColor card <> "#888" /\
    match HomeScreen.cardDetail card, due with
    | Nothing, Nothing => dueDate task = None
    | Bare a, Bare b => a = [] /\ b = [] /\ dueDate task = Some []
    | Element (_, a), Element (_, b) => a = b /\ dueDate task = Some a
    | _, _ => False
    end.
Proof.
  destruct task as [i t d st [[|c dd]|]]; destruct st; simpl;
    eexists; eexists; (split; [reflexivity|]);
    (split; [right; right; left; reflexivity|]);
    (split; [discriminate|]); auto.
Qed.

(** What the detail view shows for a loaded task: the title, the
    description and the status, in this order; the placeholder in place of
    an empty title or description; the due date only when the task has a
    non-empty one.  The not-loaded text is for no task at all. *)
Theorem detail_view_rows (task : Task) :
  TaskDetailScreen.DetailView (Some task) TaskDetailScreen.detailFields
  = TaskDetailScreen.Rows
      [ {| TaskDetailScreen.rowKey := Js.lit "title";
           TaskDetailScreen.rowLabel := "Başlık";
           TaskDetailScreen.rowValue :=
             shown TaskDetailScreen.h2 (title task) |};
        {| TaskDetailScreen.rowKey := Js.lit "description";
           TaskDetailScreen.rowLabel := "Açıklama";
           TaskDetailScreen.rowValue :=
             shown TaskDetailScreen.normal (description task) |};
        {| TaskDetailScreen.rowKey := Js.lit "status";
           TaskDetailScreen.rowLabel := "Durum";
           TaskDetailScreen.rowValue :=
             match status task with
             | pending => TaskDetailScreen.Badge "#F59E0B" "Beklemede"
             | completed => TaskDetailScreen.Badge "#10B981" "Tamamlandı"
             end |} ]
      (match dueDate task with
       | None => Nothing
       | Some [] => Bare []
       | Some (c :: d) => Element ("Bitiş Tarihi:", c :: d)
       end) /\
  forall fields,
    TaskDetailScreen.DetailView None fields
    = TaskDetailScreen.NotLoaded "Detaylar yüklenemedi.".
Proof.
  split; [| reflexivity].
  destruct task as [i [|c t] [|c' d] [] [[|c'' dd]|]]; reflexivity.
Qed.

(** The toggle button says what it will ask for.  On a loaded task it is
    enabled, its label and colour name the opposite of the task's status,
    and the request its handler sends carries that status. *)
Theorem toggle_button_announces_request
    (s : TaskDetailScreen.State) (task : Task) :
  TaskDetailScreen.loading s = false ->
  TaskDetailScreen.localTask s = Some task ->
  exists view edit toggle delete,
    TaskDetailScreen.render s
    = TaskDetailScreen.Details view edit toggle delete /\
    Button.disabled toggle = false /\
    let target := TaskDetailScreen.toggled (status task) in
    sends (Button.action toggle)
    = [{| method := PATCH; url := status_url (TaskDetailScreen.taskId s);
          body := StatusBody target |}] /\
    Button.label toggle
    = match target with
      | completed => "Tamamlandı Olarak İşaretle"
      | pending => "Beklemede Olarak İşaretle"
      end /\
    Button.color toggle
    = match target with
      | completed => TaskDetailScreen.THEME_success
      | pending => TaskDetailScreen.THEME_danger
      end.
Proof.
  intros Hl Ht. unfold TaskDetailScreen.render. rewrite Hl, Ht.
  do 4 eexists. split; [reflexivity|]. simpl.
  destruct (status task); repeat split.
Qed.

Lemma toggle_button_announces_request_witness :
  exists view edit toggle delete,
    TaskDetailScreen.render
      {| TaskDetailScreen.taskId := Js.lit "1";
         TaskDetailScreen.localTask := Some Sample.task1;
         TaskDetailScreen.loading := false |}
    = TaskDetailScreen.Details view edit toggle delete /\
    Button.label toggle = "Tamamlandı Olarak İşaretle".
Proof.
  destruct (@toggle_button_announces_request
              {| TaskDetailScreen.taskId := Js.lit "1";
                 TaskDetailScreen.localTask := Some Sample.task1;
                 TaskDetailScreen.loading := false |}
              Sample.task1 eq_refl eq_refl)
    as (view & edit & toggle & delete & H & _ & _ & Hlabel & _).
  exists view, edit, toggle, delete. split; [exact H | exact Hlabel].
Defined.

(** The list shows the cache as it is: one card per cached task, in the
    order of the cache, keyed by the task id (two tasks with one id give
    two cards with one key); a card shows its task's title and opens the
    detail of its own task.  The text for no tasks is shown exactly when
    the cache is empty. *)
Theorem home_lists_cache_in_order (store : TaskContextType.t) :
  let tasks := TaskContextType.tasks store in
  let screen := HomeScreen.render store in
  HomeScreen.refreshing screen = TaskContextType.isLoading store /\
  match HomeScreen.content screen with
  | HomeScreen.Cards cards =>
      tasks <> [] /\
      map fst cards = map id tasks /\
      map (fun c => HomeScreen.cardTitle (snd c)) cards = map title tasks /\
      forall k card,
        In (k, card) cards ->
        actions (HomeScreen.onPress card)
        = [navigation (navigate (taskDetail k))]
  | HomeScreen.EmptyText text =>
      tasks = [] /\ text = "Henüz görev bulunmamaktadır."
  end.
Proof.
  simpl. split; [reflexivity|].
  destruct (TaskContextType.tasks store) as [|t l]; simpl; [auto|].
  split; [discriminate | split; [| split]].
  - rewrite map_map. reflexivity.
  - rewrite map_map. reflexivity.
  - intros k card [[= <- <-]|Hin]; [reflexivity|].
    apply in_map_iff in Hin. destruct Hin as (x & [= <- <-] & _).
    reflexivity.
Qed.

(* ================================================================== *)
(** * The form                                                         *)
(* ================================================================== *)

(** What is entered is what is sent.  After the title and the description
    are typed and a date is confirmed in the picker, Save sends exactly
    these: the last title and description, and the UTC date of the date
    confirmed, whatever the form held before. *)
Theorem form_is_sent_as_entered
    (w : World) (s : AddTaskScreen.State) (t d : Js.str) (x : Z) :
  addScreen w = Some s ->
  AddTaskScreen.isSaving s = false ->
  Js.blank t = false ->
  requests
    (steps w [ChangeTitle t; ChangeDescription d;
              ConfirmDate (JsDate.TimeValue x); PressSave])
  = requests w ++
    [{| method := POST; url := tasks_url;
        body := TaskBody (NewTask.make t d
                            (Some (JsDate.date_string x))) |}].
Proof.
  intros Hs Hsav Ht. unfold steps.
  set (w3 := step (step (step w (ChangeTitle t)) (ChangeDescription d))
               (ConfirmDate (JsDate.TimeValue x))).
  assert (H3 : addScreen w3
               = Some {| AddTaskScreen.title := t;
                         AddTaskScreen.description := d;
                         AddTaskScreen.dueDate := JsDate.TimeValue x;
                         AddTaskScreen.isSaving := AddTaskScreen.isSaving s |}).
  { subst w3. simpl. rewrite Hs. reflexivity. }
  destruct (@press_save_valid w3 _ x H3 Hsav Ht eq_refl) as [k ->].
  subst w3. reflexivity.
Qed.

Lemma form_is_sent_as_entered_witness :
  requests
    (steps (step initial (AddScreenMounted Sample.istanbul Sample.now))
       [ChangeTitle (Js.lit "Plan"); ChangeDescription (Js.lit "x");
        ConfirmDate (JsDate.TimeValue 0); PressSave])
  = requests (step initial (AddScreenMounted Sample.istanbul Sample.now)) ++
    [{| method := POST; url := tasks_url;
        body := TaskBody (NewTask.make (Js.lit "Plan") (Js.lit "x")
                            (Some (JsDate.date_string 0))) |}].
Proof.
  exact (@form_is_sent_as_entered
           (step initial (AddScreenMounted Sample.istanbul Sample.now))
           _ (Js.lit "Plan") (Js.lit "x") 0%Z eq_refl eq_refl eq_refl).
Defined.
